(** * config_manager.py: templated JSON configuration files

    A shallow embedding of [src/config_manager.py] and the properties of
    its registration / finalize / load / save life cycle.

    Python data is modelled as follows.
    - Plain Python data ([None], [bool], [int], [float], [str], [list],
      [dict] keyed by [str | int]) is the type [JSON_ITEM]; [JNone] is
      Python's [None].
    - The text of a JSON file is the tree [json_text]; [json_dump] and
      [json_load] are [json.dump] and [json.load] on such trees (object
      keys are coerced to strings on the way out, and a repeated key keeps
      its last value on the way in).
    - Python dictionaries that the code iterates over are insertion-ordered
      association lists ([dict_get], [dict_set], [setdefault]).
    - The objects the templates point at live in a store ([world]): the
      attributes / keys of target owners, the state of direct entities, the
      files on disk and the log of warnings and user-code invocations.
    - A Python exception is a [Raise e] result; the state reached when the
      exception leaves the call is kept next to it.
    - User code ([config_serialize], [config_reconfig], the factories'
      [config_deserialize]) is a function that returns or raises;
      [config_reconfig] changes the state of its own entity only.
    - File ids are [str | int], as [_file_templates] declares them; paths
      are strings. A file holds well-formed JSON text or, after a
      [json.dump] that raised, a text cut short ([TornFile]).
    - What depends on the interpreter and the file system, namely which
      paths [open(path, 'w')] refuses and which values [json.dump] cannot
      encode, is a parameter ([Platform]).
    - An owner that is not a [dict] carries the attribute names that can be
      assigned to it: [setattr] raises [AttributeError] on the others. *)

From Stdlib Require Import ZArith Floats.
From stdpp Require Import gmap strings list fin_maps pretty.

Set Warnings "-register-all".

(** ** Identifiers and plain data *)

(** [FILE_ID = str | int], [ITEM_ID = str | int]. *)
Inductive ident :=
| IdStr (s : string)
| IdInt (n : Z).

#[global] Instance ident_eq_dec : EqDecision ident.
Proof. solve_decision. Defined.

(** [JSON_ITEM = str | int | float | JSON_LIST | JSON_OBJ], together with
    [None] and [bool], which [json.load] also produces. *)
Inductive JSON_ITEM :=
| JNone
| JBool (b : bool)
| JInt (n : Z)
| JFloat (f : float)
| JStr (s : string)
| JList (l : list JSON_ITEM)
| JDict (d : list (ident * JSON_ITEM)).

(** The tree of a JSON text: object members are string-keyed, in file
    order, and a key may be repeated. *)
Inductive json_text :=
| TNull
| TBool (b : bool)
| TInt (n : Z)
| TFloat (f : float)
| TStr (s : string)
| TArr (l : list json_text)
| TObj (members : list (string * json_text)).

(** ** Exceptions *)

(** The messages of the [RuntimeError]s the module raises. *)
Inductive message :=
| PathAssignedTwice (file_id : ident)
| ItemAddedTwice (item_id file_id : ident)
| ArgsNotList
| KwargsNotDict
| UnsupportedItemLike
| MissingFilePaths (query_result : list ident)
| LoadBeforeFinalize
| SaveBeforeFinalize
| RequiredFileMissing (file_id : ident) (file_path : string)
| FileIdMismatch
| NonExistentObject
| NotSerializable.

Inductive exn :=
| RuntimeError (m : message)
| KeyError (k : ident)
| IndexError
| TypeError
| AttributeError
| ValueError                (* json.JSONDecodeError, integer too long to print *)
| RecursionError
| OSError
| UserError (code : nat).   (* raised inside user code *)

Inductive result (A : Type) :=
| Ok (a : A)
| Raise (e : exn).
Arguments Ok {A} a.
Arguments Raise {A} e.

Definition is_ok {A} (r : result A) : bool :=
  match r with Ok _ => true | Raise _ => false end.

(** Computations that mutate a state [S] and may raise: the state in the
    result is the one reached when the call returns or the exception
    leaves it. *)
Definition M (S A : Type) : Type := S → result A * S.

Definition ret {S A} (a : A) : M S A := λ s, (Ok a, s).
Definition raise {S A} (e : exn) : M S A := λ s, (Raise e, s).
Definition bind {S A B} (c : M S A) (k : A → M S B) : M S B :=
  λ s, match c s with
       | (Ok a, s') => k a s'
       | (Raise e, s') => (Raise e, s')
       end.
Definition lift {S A} (r : result A) : M S A := λ s, (r, s).
Definition modify {S} (f : S → S) : M S unit := λ s, (Ok tt, f s).

Notation "'let!' x ':=' c 'in' k" := (bind c (λ x, k))
  (at level 10, x name, c at level 100, k at level 200).
Notation "c '>>' k" := (bind c (λ _, k))
  (at level 100, k at level 200, right associativity).

(** [for k, v in d.items(): body(k, v)] *)
Fixpoint for_each {S K V} (body : K → V → M S unit) (d : list (K * V)) : M S unit :=
  match d with
  | [] => ret tt
  | (k, v) :: rest => body k v >> for_each body rest
  end.

(** ** Insertion-ordered dictionaries *)

Section dict.
Context {K V : Type} `{EqDecision K}.

(** [d.get(k)] *)
Fixpoint dict_get (k : K) (d : list (K * V)) : option V :=
  match d with
  | [] => None
  | (k', v) :: rest => if decide (k = k') then Some v else dict_get k rest
  end.

(** [d[k] = v]: an existing key keeps its position. *)
Fixpoint dict_set (k : K) (v : V) (d : list (K * V)) : list (K * V) :=
  match d with
  | [] => [(k, v)]
  | (k', v') :: rest =>
      if decide (k = k') then (k, v) :: rest else (k', v') :: dict_set k v rest
  end.

(** [d.setdefault(k, v)]: the value now at [k], and the dictionary. *)
Definition setdefault (k : K) (v : V) (d : list (K * V)) : V * list (K * V) :=
  match dict_get k d with
  | Some x => (x, d)
  | None => (v, dict_set k v d)
  end.

(** [k in d.keys()] *)
Definition dict_mem (k : K) (d : list (K * V)) : bool :=
  match dict_get k d with Some _ => true | None => false end.

(** [dict(pairs)]: later pairs overwrite earlier ones. *)
Definition dict_of_pairs (pairs : list (K * V)) : list (K * V) :=
  fold_left (λ acc kv, dict_set kv.1 kv.2 acc) pairs [].
End dict.

(** ** The JSON collaborator *)

(** The member name [json.dump] writes for a dictionary key. *)
Definition key_text (k : ident) : string :=
  match k with
  | IdStr s => s
  | IdInt n => pretty n
  end.

Fixpoint json_dump (j : JSON_ITEM) : json_text :=
  match j with
  | JNone => TNull
  | JBool b => TBool b
  | JInt n => TInt n
  | JFloat f => TFloat f
  | JStr s => TStr s
  | JList l => TArr (map json_dump l)
  | JDict d => TObj (map (λ kv, (key_text kv.1, json_dump kv.2)) d)
  end.

Fixpoint json_load (t : json_text) : JSON_ITEM :=
  match t with
  | TNull => JNone
  | TBool b => JBool b
  | TInt n => JInt n
  | TFloat f => JFloat f
  | TStr s => JStr s
  | TArr l => JList (map json_load l)
  | TObj ms => JDict (dict_of_pairs (map (λ kv, (IdStr kv.1, json_load kv.2)) ms))
  end.


(** [x == None] on plain data. *)
Definition is_none (j : JSON_ITEM) : bool :=
  match j with JNone => true | _ => false end.

(** [f == n] for a float and an integer: Python compares the exact values. *)
Definition float_eq_int (f : float) (n : Z) : bool :=
  match Prim2SF f with
  | S754_zero _ => (n =? 0)%Z
  | S754_finite s m e =>
      let v := if s then Z.neg m else Z.pos m in
      if (0 <=? e)%Z then (v * 2 ^ e =? n)%Z else (v =? n * 2 ^ (- e))%Z
  | _ => false
  end.

(** [j == id] for plain data [j] and an identifier. *)
Definition json_eq_id (j : JSON_ITEM) (id : ident) : bool :=
  match j, id with
  | JStr s, IdStr s' => bool_decide (s = s')
  | JInt n, IdInt n' => (n =? n')%Z
  | JBool b, IdInt n' => ((if b then 1 else 0) =? n')%Z
  | JFloat f, IdInt n' => float_eq_int f n'
  | _, _ => false
  end.

(** An identifier as the plain value it is. *)
Definition id_value (id : ident) : JSON_ITEM :=
  match id with
  | IdStr s => JStr s
  | IdInt n => JInt n
  end.

(** [j[key]] for a string [key]. *)
Definition subscript (j : JSON_ITEM) (key : string) : result JSON_ITEM :=
  match j with
  | JDict d =>
      match dict_get (IdStr key) d with
      | Some v => Ok v
      | None => Raise (KeyError (IdStr key))
      end
  | _ => Raise TypeError
  end.

(** [j.get(k, None)] *)
Definition get_or_none (j : JSON_ITEM) (k : ident) : result JSON_ITEM :=
  match j with
  | JDict d => Ok (default JNone (dict_get k d))
  | _ => Raise AttributeError
  end.

(** [f(..., **kwargs)]: the keywords of a call must be strings. *)
Fixpoint keywords (kwargs : list (ident * JSON_ITEM)) : result (list (string * JSON_ITEM)) :=
  match kwargs with
  | [] => Ok []
  | (IdStr s, v) :: rest =>
      match keywords rest with
      | Ok kw => Ok ((s, v) :: kw)
      | Raise e => Raise e
      end
  | (IdInt _, _) :: _ => Raise TypeError
  end.

(** What a file holds: JSON text, or what a [json.dump] that raised after
    the file was opened left behind, which is not JSON. *)
Inductive file_content :=
| JsonFile (text : json_text)
| TornFile.

Coercion JsonFile : json_text >-> file_content.

(** The interpreter and the file system. [open_error path] is the
    exception [open(path, 'w')] raises, if any (a missing directory, no
    permission); the file is then untouched. [encode_error j] is the
    exception [json.dump] raises on [j], if any (an integer of more digits
    than the interpreter prints, nesting deeper than the stack allows). *)
Class Platform := {
  open_error : string → option exn;
  encode_error : JSON_ITEM → option exn;
}.

(** ** Capability interfaces *)

Class I_ConfigSerializable (A : Type) :=
  config_serialize : A → ident → result JSON_ITEM.

Class I_ConfigDeserializable (A : Type) :=
  config_reconfig :
    A → ident → JSON_ITEM → list JSON_ITEM → list (string * JSON_ITEM) → result A.

Class I_ConfigItem (A : Type) := {
  #[global] item_deserializable :: I_ConfigDeserializable A;
  #[global] item_serializable :: I_ConfigSerializable A;
}.

(** Heap addresses of the objects the templates refer to. *)
Definition loc := nat.

(** [ConfigTarget.obj : object | dict]. An object that is not a [dict]
    comes with the names [setattr] accepts on it: all of them for an
    instance of an ordinary class, none for a bare [object()], a named
    tuple or a frozen dataclass, the declared ones for a class with
    [__slots__]. *)
Inductive owner :=
| OwnerDict (l : loc)                               (* type(obj) == dict *)
| OwnerObject (l : loc) (settable : string → bool). (* any other object *)

Definition owner_loc (o : owner) : loc :=
  match o with OwnerDict l | OwnerObject l _ => l end.

Section Engine.
(** [user_obj]: instances of the user's [I_ConfigSerializable] classes,
    the values factories build. [entity]: instances of the user's
    [I_ConfigItem] classes, bound directly. *)
Context {user_obj entity : Type}.
Context `{!I_ConfigSerializable user_obj} `{!I_ConfigItem entity} `{platform : !Platform}.

(** A value found at an attribute or key of an owner. *)
Inductive pyval :=
| PData (j : JSON_ITEM)    (* plain data: no I_ConfigSerializable *)
| PSer (o : user_obj).     (* issubclass(type(o), I_ConfigSerializable) *)

(** [v == None] *)
Definition py_is_none (v : pyval) : bool :=
  match v with
  | PData j => is_none j
  | PSer _ => false
  end.

Record I_ConfigItemFactory := {
  config_deserialize :
    ident → JSON_ITEM → list JSON_ITEM → list (string * JSON_ITEM) → result pyval;
}.

Record ConfigTarget := {
  obj : owner;
  attr : string;
  factory : I_ConfigItemFactory;
}.

(** [ConfigItemTemplate.target : I_ConfigItem | ConfigTarget] *)
Inductive destination :=
| DEntity (e : loc)
| DTarget (t : ConfigTarget).

Record ConfigItemTemplate := {
  target : destination;
  default_args : list JSON_ITEM;
  default_kwargs : list (ident * JSON_ITEM);
}.

Record ConfigFileTemplate := {
  file_path : option string;
  file_required : bool;
  item_templates : list (ident * ConfigItemTemplate);
}.

Record ConfigManager := {
  _file_templates : list (ident * ConfigFileTemplate);
  _finalized : bool;
}.

(** *** The store *)

Inductive event :=
| Warning (o : owner) (a : string) (attr_obj : pyval)
| FactoryCall (o : owner) (a : string) (item_id : ident) (json_obj : JSON_ITEM)
    (args : list JSON_ITEM) (kwargs : list (string * JSON_ITEM))
| ReconfigCall (e : loc) (item_id : ident) (json_obj : JSON_ITEM)
    (args : list JSON_ITEM) (kwargs : list (string * JSON_ITEM)).

Record world := {
  slots : gmap (loc * string) pyval;   (* attributes / keys of the owners *)
  entities : loc → entity;             (* state of the direct entities *)
  disk : gmap string file_content;     (* the files *)
  events : list event;                 (* warnings and user-code calls *)
}.

(** [obj.get(attr, None)] / [getattr(obj, attr, None)] *)
Definition slot_read (o : owner) (a : string) (w : world) : pyval :=
  default (PData JNone) (slots w !! (owner_loc o, a)).

(** [obj[attr] = v] / [setattr(obj, attr, v)] *)
Definition slot_write (o : owner) (a : string) (v : pyval) (w : world) : world :=
  {| slots := <[(owner_loc o, a) := v]> (slots w);
     entities := entities w; disk := disk w; events := events w |}.

Definition entity_write (e : loc) (st : entity) (w : world) : world :=
  {| slots := slots w;
     entities := λ l, if decide (l = e) then st else entities w l;
     disk := disk w; events := events w |}.

Definition disk_write (p : string) (c : file_content) (w : world) : world :=
  {| slots := slots w; entities := entities w;
     disk := <[p := c]> (disk w); events := events w |}.

Definition emit (ev : event) (w : world) : world :=
  {| slots := slots w; entities := entities w; disk := disk w;
     events := events w ++ [ev] |}.

(** *** ConfigItemTemplate *)

Definition _serialize_obj (self : ConfigItemTemplate) (item_id : ident)
    (w : world) : result JSON_ITEM :=
  match target self with
  | DTarget t =>
      let _target :=
        match obj t with
        | OwnerDict _ => slot_read (obj t) (attr t) w
        | OwnerObject _ _ => slot_read (obj t) (attr t) w
        end in
      if py_is_none _target then Raise (RuntimeError NonExistentObject)
      else match _target with
           | PSer o => config_serialize o item_id
           | PData _ => Raise (RuntimeError NotSerializable)
           end
  | DEntity e =>
      (* an I_ConfigItem instance is an I_ConfigSerializable *)
      config_serialize (entities w e) item_id
  end.

(** [factory.config_deserialize(item_id, json_obj, *_args, **_kwargs)] *)
Definition call_factory (t : ConfigTarget) (item_id : ident) (json_obj : JSON_ITEM)
    (_args : list JSON_ITEM) (_kwargs : list (ident * JSON_ITEM)) : M world pyval :=
  let! kw := lift (keywords _kwargs) in
  modify (emit (FactoryCall (obj t) (attr t) item_id json_obj _args kw)) >>
  lift (config_deserialize (factory t) item_id json_obj _args kw).

(** [entity.config_reconfig(item_id, json_obj, *_args, **_kwargs)] *)
Definition call_reconfig (e : loc) (item_id : ident) (json_obj : JSON_ITEM)
    (_args : list JSON_ITEM) (_kwargs : list (ident * JSON_ITEM)) : M world unit :=
  let! kw := lift (keywords _kwargs) in
  modify (emit (ReconfigCall e item_id json_obj _args kw)) >>
  λ w, match config_reconfig (entities w e) item_id json_obj _args kw with
       | Ok st => (Ok tt, entity_write e st w)
       | Raise err => (Raise err, w)
       end.

(** [setattr(obj, attr, val)]: a [dict] has no attributes that can be
    set; another object accepts the names it accepts. *)
Definition setattr (o : owner) (a : string) (v : pyval) : M world unit :=
  match o with
  | OwnerObject _ settable =>
      if settable a then modify (slot_write o a v) else raise AttributeError
  | OwnerDict _ => raise AttributeError
  end.

Definition _deserialize_obj (self : ConfigItemTemplate) (item_id : ident)
    (json_obj : JSON_ITEM) : M world unit :=
  let _args := default_args self in
  let _kwargs := default_kwargs self in
  match target self with
  | DTarget t =>
      match obj t with
      | OwnerDict _ =>
          (λ w, let attr_obj := slot_read (obj t) (attr t) w in
                if negb (py_is_none attr_obj)
                then (Ok tt, emit (Warning (obj t) (attr t) attr_obj) w)
                else (Ok tt, w)) >>
          let! v := call_factory t item_id json_obj _args _kwargs in
          modify (slot_write (obj t) (attr t) v)
      | OwnerObject _ _ =>
          (λ w, let attr_obj := slot_read (obj t) (attr t) w in
                if negb (py_is_none attr_obj)
                then (Ok tt, emit (Warning (obj t) (attr t) attr_obj) w)
                else (Ok tt, w)) >>
          let! v := call_factory t item_id json_obj _args _kwargs in
          setattr (obj t) (attr t) v
      end
  | DEntity e =>
      if negb (is_none json_obj)
      then call_reconfig e item_id json_obj _args _kwargs
      else ret tt
  end.

(** *** ConfigManager *)

(** [ConfigManager.__init__] *)
Definition init : ConfigManager :=
  {| _file_templates := []; _finalized := false |}.

Definition add_file_path (file_id : ident) (path : string) (required : bool)
    : M ConfigManager unit := λ self,
  (* Get File Template instance for the given id *)
  let '(file_template, templates) :=
    setdefault file_id
      {| file_path := None; file_required := false; item_templates := [] |}
      (_file_templates self) in
  let self := {| _file_templates := templates; _finalized := false |} in
  (* Attempt to set file templates path *)
  if bool_decide (file_path file_template ≠ None)
  then (Raise (RuntimeError (PathAssignedTwice file_id)), self)
  else
    let file_template :=
      {| file_path := Some path; file_required := required;
         item_templates := item_templates file_template |} in
    (Ok tt, {| _file_templates := dict_set file_id file_template (_file_templates self);
               _finalized := _finalized self |}).

(** An element of a tuple handed to [add_items]. *)
Inductive dyn :=
| DynDest (d : destination)   (* a ConfigTarget or an I_ConfigItem instance *)
| DynData (j : JSON_ITEM)     (* plain data *)
| DynOther.                   (* a value of any other type *)

(** [CONFIG_ITEM_LIKE], as [add_items] inspects it. *)
Inductive item_like :=
| LTemplate (t : ConfigItemTemplate)
| LDest (d : destination)
| LTuple (elems : list dyn)
| LOther.                     (* a value of any other type *)

Definition is_dest (x : dyn) : bool :=
  match x with DynDest _ => true | _ => false end.
(** [type(x) == list] *)
Definition is_list (x : dyn) : bool :=
  match x with DynData (JList _) => true | _ => false end.
(** [type(x) == dict] *)
Definition is_dict (x : dyn) : bool :=
  match x with DynData (JDict _) => true | _ => false end.

(** [ConfigItemTemplate] applied to the unpacked tuple for a tuple that passed the checks of
    [add_items]: at most three positional arguments. *)
Definition template_of_tuple (elems : list dyn) : result ConfigItemTemplate :=
  match elems with
  | [DynDest d] =>
      Ok {| target := d; default_args := []; default_kwargs := [] |}
  | [DynDest d; DynData (JList a)] =>
      Ok {| target := d; default_args := a; default_kwargs := [] |}
  | [DynDest d; DynData (JList a); DynData (JDict kw)] =>
      Ok {| target := d; default_args := a; default_kwargs := kw |}
  | _ => Raise TypeError
  end.

(** The template [add_items] stores for one item, or the error it raises. *)
Definition template_of_item_like (x : item_like) : result ConfigItemTemplate :=
  match x with
  | LTemplate t => Ok t
  | LDest d => Ok {| target := d; default_args := []; default_kwargs := [] |}
  | LTuple elems =>
      match elems !! 0%nat with
      | None => Raise IndexError
      | Some e0 =>
          if is_dest e0 then
            if bool_decide (1 < length elems)%nat
               && negb (from_option is_list false (elems !! 1%nat))
            then Raise (RuntimeError ArgsNotList)
            else if bool_decide (2 < length elems)%nat
                    && negb (from_option is_dict false (elems !! 2%nat))
            then Raise (RuntimeError KwargsNotDict)
            else template_of_tuple elems
          else Raise (RuntimeError UnsupportedItemLike)
      end
  | LOther => Raise (RuntimeError UnsupportedItemLike)
  end.

(** The body of the loop of [add_items], on the item templates of the
    selected file template. *)
Definition add_item (file_id item_id : ident) (x : item_like)
    : M (list (ident * ConfigItemTemplate)) unit := λ its,
  (* Check item template dose not already exist *)
  if dict_mem item_id its
  then (Raise (RuntimeError (ItemAddedTwice item_id file_id)), its)
  else
    (* Add Item_Like as appropriate template *)
    match template_of_item_like x with
    | Ok t => (Ok tt, dict_set item_id t its)
    | Raise e => (Raise e, its)
    end.

Definition add_items (file_id : ident) (items : list (ident * item_like))
    : M ConfigManager unit := λ self,
  (* Get File Template instate for the given id *)
  let '(file_template, templates) :=
    setdefault file_id
      {| file_path := None; file_required := false; item_templates := [] |}
      (_file_templates self) in
  (* Attempt to add Items to selected template *)
  let '(r, its) := for_each (add_item file_id) items (item_templates file_template) in
  let file_template :=
    {| file_path := file_path file_template;
       file_required := file_required file_template;
       item_templates := its |} in
  (r, {| _file_templates := dict_set file_id file_template templates;
         _finalized := false |}).

Definition finalize_layout : M ConfigManager unit := λ self,
  (* Check that a file path has been set for all templates *)
  let query_result :=
    (filter (λ kv, file_path kv.2 = None) (_file_templates self)).*1 in
  if bool_decide (0 < length query_result)%nat
  then (Raise (RuntimeError (MissingFilePaths query_result)), self)
  else
    (* Set Finalized flag *)
    (Ok tt, {| _file_templates := _file_templates self; _finalized := true |}).

(** [os.path.isfile(path)], [open(path)]: a path that is [None] is a
    [TypeError]. *)
Definition the_path (file_template : ConfigFileTemplate) : result string :=
  match file_path file_template with
  | Some p => Ok p
  | None => Raise TypeError
  end.

Definition _load_config_file (file_id : ident) (file_template : ConfigFileTemplate)
    : M world unit :=
  let! path := lift (the_path file_template) in
  let! on_disk := (λ w, (Ok (disk w !! path), w)) in
  match on_disk with
  | None =>
      (* Check if file is required to exist *)
      if file_required file_template
      then raise (RuntimeError (RequiredFileMissing file_id path))
      else
        (* Create default items *)
        for_each (λ item_id item_template, _deserialize_obj item_template item_id JNone)
          (item_templates file_template)
  | Some TornFile =>
      (* Load JSON File: the text is not JSON *)
      raise ValueError
  | Some (JsonFile text) =>
      (* Load JSON File *)
      let json_data := json_load text in
      (* Confirm file properties *)
      let! file_properties := lift (subscript json_data "properties") in
      let! id := lift (subscript file_properties "id") in
      if negb (json_eq_id id file_id)
      then raise (RuntimeError FileIdMismatch)
      else
        (* Load Items from JSON data *)
        let! file_items := lift (subscript json_data "general_items") in
        for_each (λ item_id item_template,
                    let! json_obj := lift (get_or_none file_items item_id) in
                    _deserialize_obj item_template item_id json_obj)
          (item_templates file_template)
  end.

Definition load_configs (self : ConfigManager) : M world unit :=
  (* Check if layout was finalized *)
  if negb (_finalized self)
  then raise (RuntimeError LoadBeforeFinalize)
  else
    (* Attempt to Load in templates *)
    for_each _load_config_file (_file_templates self).

(** [self._file_templates[file_id]] *)
Definition file_template_of (self : ConfigManager) (file_id : ident)
    : result ConfigFileTemplate :=
  match dict_get file_id (_file_templates self) with
  | Some file_template => Ok file_template
  | None => Raise (KeyError file_id)
  end.

Definition load_config_file (self : ConfigManager) (file_id : ident) : M world unit :=
  (* Check if layout was finalized *)
  if negb (_finalized self)
  then raise (RuntimeError LoadBeforeFinalize)
  else
    let! file_template := lift (file_template_of self file_id) in
    _load_config_file file_id file_template.

(** [open(path, 'w')]: raises, or leaves the file empty. *)
Definition open_truncating (path : string) : M world unit :=
  match open_error path with
  | Some e => raise e
  | None => modify (disk_write path TornFile)
  end.

(** The loop of [_save_config_file] that fills [json_items]. *)
Fixpoint serialize_items (items : list (ident * ConfigItemTemplate))
    (json_items : list (ident * JSON_ITEM)) (w : world)
    : result (list (ident * JSON_ITEM)) :=
  match items with
  | [] => Ok json_items
  | (item_id, item_template) :: rest =>
      match _serialize_obj item_template item_id w with
      | Ok j => serialize_items rest (dict_set item_id j json_items) w
      | Raise e => Raise e
      end
  end.

Definition _save_config_file (file_id : ident) (file_template : ConfigFileTemplate)
    : M world unit :=
  (* Save File properties *)
  let properties := JDict [(IdStr "id", id_value file_id)] in
  (* Save Items *)
  let! json_items := (λ w, (serialize_items (item_templates file_template) [] w, w)) in
  let json_data :=
    JDict [(IdStr "properties", properties); (IdStr "general_items", JDict json_items)] in
  (* Save out file *)
  let! path := lift (the_path file_template) in
  open_truncating path >>
  match encode_error json_data with
  | Some e => raise e
  | None => modify (disk_write path (json_dump json_data))
  end.

Definition save_configs (self : ConfigManager) : M world unit :=
  (* Check if layout was finalized *)
  if negb (_finalized self)
  then raise (RuntimeError SaveBeforeFinalize)
  else
    (* Attempt to Save out templates *)
    for_each _save_config_file (_file_templates self).

Definition save_config_file (self : ConfigManager) (file_id : ident) : M world unit :=
  (* Check if layout was finalized *)
  if negb (_finalized self)
  then raise (RuntimeError SaveBeforeFinalize)
  else
    let! file_template := lift (file_template_of self file_id) in
    _save_config_file file_id file_template.
End Engine.

(** ** Life cycle *)

Section Lifecycle.
Context {user_obj entity : Type}.
Context `{!I_ConfigSerializable user_obj} `{!I_ConfigItem entity} `{platform : !Platform}.
Local Abbreviation manager := (@ConfigManager user_obj).
Local Abbreviation store := (@world user_obj entity).

(** The managers a caller can build: a fresh manager, and whatever the
    registration calls and [finalize_layout] leave behind, whether they
    return or raise. *)
Inductive reachable : manager → Prop :=
| reachable_init : reachable init
| reachable_add_file_path m file_id path required :
    reachable m → reachable (add_file_path file_id path required m).2
| reachable_add_items m file_id items :
    reachable m → reachable (add_items file_id items m).2
| reachable_finalize_layout m :
    reachable m → reachable (finalize_layout m).2.

(** What holds of every reachable manager: keys are unique (they are
    dictionary keys), and a finalized manager has a path for every file. *)
Definition manager_inv (m : manager) : Prop :=
  NoDup (_file_templates m).*1 ∧
  Forall (λ kv, NoDup (item_templates kv.2).*1) (_file_templates m) ∧
  (_finalized m = true → Forall (λ kv, file_path kv.2 ≠ None) (_file_templates m)).

(** The public methods of a manager. *)
Inductive call :=
| AddFilePath (file_id : ident) (path : string) (required : bool)
| AddItems (file_id : ident) (items : list (ident * @item_like user_obj))
| FinalizeLayout
| LoadConfigs
| LoadConfigFile (file_id : ident)
| SaveConfigs
| SaveConfigFile (file_id : ident).

Definition is_registration (c : call) : bool :=
  match c with AddFilePath _ _ _ | AddItems _ _ => true | _ => false end.

Definition is_load_or_save (c : call) : bool :=
  match c with
  | LoadConfigs | LoadConfigFile _ | SaveConfigs | SaveConfigFile _ => true
  | _ => false
  end.

Definition on_manager {A} (c : M manager A) : M (manager * store) A :=
  λ st, let '(r, m) := c st.1 in (r, (m, st.2)).

Definition on_world {A} (c : manager → M store A) : M (manager * store) A :=
  λ st, let '(r, w) := c st.1 st.2 in (r, (st.1, w)).

Definition run_call (c : call) : M (manager * store) unit :=
  match c with
  | AddFilePath file_id path required => on_manager (add_file_path file_id path required)
  | AddItems file_id items => on_manager (add_items file_id items)
  | FinalizeLayout => on_manager finalize_layout
  | LoadConfigs => on_world load_configs
  | LoadConfigFile file_id => on_world (λ m, load_config_file m file_id)
  | SaveConfigs => on_world save_configs
  | SaveConfigFile file_id => on_world (λ m, save_config_file m file_id)
  end.

(** A caller that makes the calls one after the other and carries on
    after an exception. *)
Definition run_calls (cs : list call) (st : manager * store) : manager * store :=
  fold_left (λ st c, (run_call c st).2) cs st.
End Lifecycle.

(** ** Vocabulary of the statements *)

Section Vocabulary.
Context {user_obj entity : Type}.
Local Abbreviation store := (@world user_obj entity).

(** The item templates registered for a file id: none for an id that has
    no file template yet. *)
Definition items_of (m : @ConfigManager user_obj) (file_id : ident)
    : list (ident * @ConfigItemTemplate user_obj) :=
  match dict_get file_id (_file_templates m) with
  | Some ft => item_templates ft
  | None => []
  end.


(** [y] is the template [add_items] stores for the item-like [x]. *)
Definition registers (x : ident * @item_like user_obj)
    (y : ident * @ConfigItemTemplate user_obj) : Prop :=
  x.1 = y.1 ∧ template_of_item_like x.2 = Ok y.2.

(** Where a target points: the owner and the attribute or key. *)
Definition slot_of (t : @ConfigTarget user_obj) : loc * string :=
  (owner_loc (obj t), attr t).

(** [del obj[attr]] / [delattr(obj, attr)]: the store in which the
    destination of [t] is absent. *)
Definition slot_clear (t : @ConfigTarget user_obj) (w : store) : store :=
  {| slots := delete (slot_of t) (slots w);
     entities := entities w; disk := disk w; events := events w |}.

(** The store once the overwrite warning of [_deserialize_obj], if any,
    has been logged. *)
Definition warned (t : @ConfigTarget user_obj) (w : store) : store :=
  if negb (py_is_none (slot_read (obj t) (attr t) w))
  then emit (Warning (obj t) (attr t) (slot_read (obj t) (attr t) w)) w
  else w.

Definition is_warning (ev : @event user_obj) : bool :=
  match ev with Warning _ _ _ => true | _ => false end.
Definition is_factory_call (ev : @event user_obj) : bool :=
  match ev with FactoryCall _ _ _ _ _ _ => true | _ => false end.
Definition is_reconfig_call (ev : @event user_obj) : bool :=
  match ev with ReconfigCall _ _ _ _ _ => true | _ => false end.

(** The factory of [t], called for item [item_id] of template [self] with
    [json_obj], returns [v]. *)
Definition factory_returns (self : @ConfigItemTemplate user_obj)
    (t : @ConfigTarget user_obj) (item_id : ident) (json_obj : JSON_ITEM)
    (v : @pyval user_obj) : Prop :=
  ∃ kw, keywords (default_kwargs self) = Ok kw ∧
        config_deserialize (factory t) item_id json_obj (default_args self) kw = Ok v.


(** The document [_save_config_file] builds for a file. *)
Definition json_data_of (file_id : ident) (json_items : list (ident * JSON_ITEM))
    : JSON_ITEM :=
  JDict [(IdStr "properties", JDict [(IdStr "id", id_value file_id)]);
         (IdStr "general_items", JDict json_items)].

(** The owner of the target takes the assignment of its attribute or key:
    a [dict] always does. *)
Definition accepts_write (t : @ConfigTarget user_obj) : bool :=
  match obj t with
  | OwnerDict _ => true
  | OwnerObject _ settable => settable (attr t)
  end.

(** Under the equality [veq], the destinations of the target items hold
    in [w'] what they hold in [w]. *)
Definition slots_kept (veq : relation (@pyval user_obj))
    (items : list (ident * @ConfigItemTemplate user_obj)) (w w' : store) : Prop :=
  ∀ id self t, (id, self) ∈ items → target self = DTarget t →
    veq (slot_read (obj t) (attr t) w') (slot_read (obj t) (attr t) w).



End Vocabulary.

(** ** A concrete application *)

Module Scenario.
(** A serializable holder of a plain value; it serializes to the value. *)
Record Holder := { held : JSON_ITEM }.

#[global] Instance holder_serializable : I_ConfigSerializable Holder :=
  λ h _, Ok (held h).

(** A direct entity: a counter that is reconfigured from an integer. *)
Record Counter := { count : Z }.

#[global] Instance counter_item : I_ConfigItem Counter := {|
  item_deserializable := λ _ _ json_obj _ _,
    match json_obj with
    | JInt n => Ok {| count := n |}
    | _ => Raise (UserError 0)
    end;
  item_serializable := λ c _, Ok (JInt (count c));
|}.

Definition app_world := @world Holder Counter.

(** The interpreter of the application prints integers of at most 4300
    digits, those of dictionary keys included; its file system opens
    every path. *)
Definition printable (n : Z) : bool :=
  (* an integer below [2 ^ 14284] has at most 4300 digits *)
  if (Z.log2 (Z.abs n) <? 14284)%Z then true else (Z.abs n <? 10 ^ 4300)%Z.

Fixpoint unprintable (j : JSON_ITEM) : bool :=
  match j with
  | JInt n => negb (printable n)
  | JList l => existsb unprintable l
  | JDict d =>
      existsb (λ kv, match kv.1 with
                     | IdInt n => negb (printable n)
                     | IdStr _ => false
                     end || unprintable kv.2) d
  | _ => false
  end.

#[export] Instance app_platform : Platform := {|
  open_error := λ _, None;
  encode_error := λ j, if unprintable j then Some ValueError else None;
|}.

(** The factory that returns the JSON value, or [0] if there is none. *)
Definition value_factory : @I_ConfigItemFactory Holder :=
  {| config_deserialize := λ _ json_obj _ _,
       Ok (PData (if is_none json_obj then JInt 0 else json_obj)) |}.

(** The factory that returns a holder of the JSON value, or of [0] if
    there is none. *)
Definition holder_factory : @I_ConfigItemFactory Holder :=
  {| config_deserialize := λ _ json_obj _ _,
       Ok (PSer {| held := if is_none json_obj then JInt 0 else json_obj |}) |}.

(** The factory that returns a holder of [0] whatever it is given. *)
Definition fresh_factory : @I_ConfigItemFactory Holder :=
  {| config_deserialize := λ _ _ _ _, Ok (PSer {| held := JInt 0 |}) |}.

(** The mapping of the application and its key ["volume"]. *)
Definition mapping : owner := OwnerDict 0.

Definition volume (f : @I_ConfigItemFactory Holder) : ConfigTarget :=
  {| obj := mapping; attr := "volume"; factory := f |}.

(** File id ["app"] at path [p], not required, with the item [item_id]
    bound to the key ["volume"] of the mapping; finalized. *)
Definition manager_with (item_id : ident) (p : string) (f : @I_ConfigItemFactory Holder)
    : @ConfigManager Holder :=
  let m := init in
  let m := (add_file_path (IdStr "app") p false m).2 in
  let m := (add_items (IdStr "app") [(item_id, LDest (DTarget (volume f)))] m).2 in
  (finalize_layout m).2.

Definition app_manager := manager_with (IdStr "volume").

(** The same file with, in addition, a direct entity at address [1]. *)
Definition mixed_manager (p : string) (required : bool) : @ConfigManager Holder :=
  let m := init in
  let m := (add_file_path (IdStr "app") p required m).2 in
  let m := (add_items (IdStr "app")
              [(IdStr "volume", LDest (DTarget (volume holder_factory)));
               (IdStr "counter", LDest (DEntity 1%nat))] m).2 in
  (finalize_layout m).2.

(** The text of the file of the application with volume [n]. *)
Definition app_document (n : Z) : file_content :=
  JsonFile (TObj [("properties", TObj [("id", TStr "app")]);
                  ("general_items", TObj [("volume", TInt n)])]).

(** Nothing in the mapping, nothing on disk. *)
Definition empty_world : app_world :=
  {| slots := ∅; entities := λ _, {| count := 0 |}; disk := ∅; events := [] |}.

(** The mapping holds [v] at ["volume"]; nothing on disk. *)
Definition world_with (v : @pyval Holder) : app_world :=
  {| slots := {[ (0%nat, "volume") := v ]}; entities := λ _, {| count := 0 |};
     disk := ∅; events := [] |}.

(** The store after the item ["volume"] was built from [json_obj]. *)
Definition volume_set f (json_obj : JSON_ITEM) (v : @pyval Holder) (w : app_world)
    : app_world :=
  slot_write mapping "volume" v
    (emit (FactoryCall mapping "volume" (IdStr "volume") json_obj [] [])
       (warned (volume f) w)).

(** A manager in which file ["other"] has items but no path. *)
Definition partial_manager : @ConfigManager Holder :=
  let m := init in
  let m := (add_file_path (IdStr "app") "app.json" false m).2 in
  (add_items (IdStr "other") [] m).2.

(** The file template of ["app"] in [mixed_manager]. *)
Definition mixed_template (p : string) (required : bool) : @ConfigFileTemplate Holder :=
  {| file_path := Some p; file_required := required;
     item_templates :=
       [(IdStr "volume", {| target := DTarget (volume holder_factory);
                            default_args := []; default_kwargs := [] |});
        (IdStr "counter", {| target := DEntity 1%nat;
                             default_args := []; default_kwargs := [] |})] |}.

(** The file template of ["app"] in [manager_with]. *)
Definition app_template (item_id : ident) (p : string) (f : @I_ConfigItemFactory Holder)
    : @ConfigFileTemplate Holder :=
  {| file_path := Some p; file_required := false;
     item_templates :=
       [(item_id, {| target := DTarget (volume f);
                     default_args := []; default_kwargs := [] |})] |}.

(** A store whose file at ["app.json"] carries the id ["other"]. *)
Definition misrouted_world : app_world :=
  {| slots := ∅; entities := λ _, {| count := 0 |};
     disk := {[ "app.json" :=
                  JsonFile
                    (TObj [("properties", TObj [("id", TStr "other")]);
                           ("general_items", TObj [("volume", TInt 3)])]) ]};
     events := [] |}.





End Scenario.

(** ** Further vocabulary *)

Section Registry.
Context {user_obj : Type}.
Local Abbreviation manager := (@ConfigManager user_obj).

(** The path registered for a file id, if any. *)
Definition path_of (m : manager) (file_id : ident) : option string :=
  match dict_get file_id (_file_templates m) with
  | Some ft => file_path ft
  | None => None
  end.

(** The required flag registered for a file id ([False] by default). *)
Definition required_of (m : manager) (file_id : ident) : bool :=
  match dict_get file_id (_file_templates m) with
  | Some ft => file_required ft
  | None => false
  end.
End Registry.

(** ** The helper of the module, and further vocabulary of the store *)

Section StoreVocabulary.
Context {user_obj entity : Type}.
Local Abbreviation store := (@world user_obj entity).


(** [w'] is [w] but for the destinations of [items]: the disk is the same,
    the log has only grown, and the attributes, keys and entities that no
    item of [items] is bound to are the same. *)
Definition touches_only (items : list (ident * @ConfigItemTemplate user_obj))
    (w w' : store) : Prop :=
  disk w' = disk w ∧
  (∃ evs, events w' = events w ++ evs) ∧
  (∀ k, (∀ id self t, (id, self) ∈ items → target self = DTarget t → slot_of t ≠ k) →
        slots w' !! k = slots w !! k) ∧
  (∀ l, (∀ id self, (id, self) ∈ items → target self ≠ DEntity l) →
        entities w' l = entities w l).
End StoreVocabulary.

(** ** Further concrete stores and templates *)

Module Fixtures.
Import Scenario.

(** The text of the file of the application with one entry under ["1"]. *)
Definition numbered_document : json_text :=
  TObj [("properties", TObj [("id", TStr "app")]);
        ("general_items", TObj [("1", TInt 5)])].

(** A store whose file at ["app.json"] is [numbered_document]. *)
Definition numbered_world : app_world :=
  {| slots := ∅; entities := λ _, {| count := 0 |};
     disk := {[ "app.json" := JsonFile numbered_document ]}; events := [] |}.

(** The template [add_items] stores for a bare target. *)
Definition volume_template : @ConfigItemTemplate Holder :=
  {| target := DTarget (volume holder_factory);
     default_args := []; default_kwargs := [] |}.

(** A template whose default keyword arguments are keyed by an integer. *)
Definition int_keyed_template : @ConfigItemTemplate Holder :=
  {| target := DTarget (volume holder_factory);
     default_args := []; default_kwargs := [(IdInt 1, JInt 0)] |}.





(** A manager with a path for ["app"] and nothing else, not finalized. *)
Definition path_only_manager : @ConfigManager Holder :=
  (add_file_path (IdStr "app") "app.json" false init).2.

(** Two more items for the file of the application. *)
Definition more_items : list (ident * @item_like Holder) :=
  [(IdStr "balance", LTuple [DynDest (DTarget (volume fresh_factory));
                             DynData (JList [JInt 1])]);
   (IdStr "counter", LDest (DEntity 1%nat))].
End Fixtures.

(** * Properties *)

(** ** Dictionaries *)

Section dict_facts.
Context {K V : Type} `{EqDecision K}.
Implicit Types (k : K) (v : V) (d : list (K * V)).

Lemma dict_get_set_eq k v d : dict_get k (dict_set k v d) = Some v.
Proof.
  induction d as [|[k' v'] d IH]; simpl.
  - by rewrite decide_True.
  - destruct (decide (k = k')) as [->|Hne]; simpl.
    + by rewrite decide_True.
    + by rewrite decide_False.
Qed.

Lemma dict_get_set_ne k k' v d :
  k ≠ k' → dict_get k (dict_set k' v d) = dict_get k d.
Proof.
  intros Hne. induction d as [|[k0 v0] d IH]; simpl.
  - by rewrite decide_False.
  - destruct (decide (k' = k0)) as [->|Hne']; simpl.
    + by rewrite !decide_False.
    + by rewrite IH.
Qed.

Lemma dict_get_None k d : dict_get k d = None ↔ k ∉ d.*1.
Proof.
  induction d as [|[k' v'] d IH]; simpl.
  - split; [intros _; apply not_elem_of_nil | done].
  - rewrite not_elem_of_cons. destruct (decide (k = k')) as [->|Hne].
    + split; [done|]. by intros [? _].
    + rewrite IH. split; [done|]. by intros [_ ?].
Qed.

Lemma dict_get_Some_elem k v d : dict_get k d = Some v → (k, v) ∈ d.
Proof.
  induction d as [|[k' v'] d IH]; simpl; [done|].
  destruct (decide (k = k')) as [->|Hne].
  - intros [= ->]. apply list_elem_of_here.
  - intros Hd. apply list_elem_of_further, IH, Hd.
Qed.

Lemma dict_get_elem k v d : NoDup d.*1 → (k, v) ∈ d → dict_get k d = Some v.
Proof.
  induction d as [|[k' v'] d IH]; simpl.
  - intros _ Hin. by apply elem_of_nil in Hin.
  - rewrite NoDup_cons. intros [Hk' Hnd] Hin.
    apply elem_of_cons in Hin as [[= -> ->]|Hin].
    + by rewrite decide_True.
    + rewrite decide_False; [by apply IH|].
      intros ->. apply Hk'. apply list_elem_of_fmap. by exists (k', v).
Qed.

Lemma dict_set_fresh k v d : dict_get k d = None → dict_set k v d = d ++ [(k, v)].
Proof.
  induction d as [|[k' v'] d IH]; simpl; [done|].
  destruct (decide (k = k')); [done|]. intros Hd. by rewrite IH.
Qed.

Lemma dict_set_keys_present k v d :
  is_Some (dict_get k d) → (dict_set k v d).*1 = d.*1.
Proof.
  induction d as [|[k' v'] d IH]; simpl.
  - by intros [? ?].
  - destruct (decide (k = k')) as [->|Hne]; [done|].
    intros Hd. rewrite !fmap_cons. f_equal. by apply IH.
Qed.

Lemma dict_set_NoDup k v d : NoDup d.*1 → NoDup (dict_set k v d).*1.
Proof.
  intros Hnd. destruct (dict_get k d) as [x|] eqn:Hget.
  - by rewrite dict_set_keys_present.
  - rewrite dict_set_fresh by done. rewrite fmap_app. simpl.
    apply NoDup_app. split_and!; [done| |apply NoDup_singleton].
    intros k' Hin ->%list_elem_of_singleton. by apply dict_get_None in Hget.
Qed.

Lemma dict_set_Forall (P : K * V → Prop) k v d :
  Forall P d → P (k, v) → Forall P (dict_set k v d).
Proof.
  intros Hd Hkv. induction Hd as [|[k' v'] d Hx Hd IH]; simpl.
  - by constructor.
  - destruct (decide (k = k')); constructor; done.
Qed.

Lemma dict_get_Forall (P : K * V → Prop) k v d :
  Forall P d → dict_get k d = Some v → P (k, v).
Proof.
  intros Hd Hget. rewrite Forall_forall in Hd.
  by apply Hd, dict_get_Some_elem.
Qed.

Lemma dict_get_app k d1 d2 :
  dict_get k (d1 ++ d2) =
    match dict_get k d1 with Some v => Some v | None => dict_get k d2 end.
Proof.
  induction d1 as [|[k' v'] d1 IH]; simpl; [done|].
  by destruct (decide (k = k')).
Qed.




Lemma dict_mem_true k d : dict_mem k d = true ↔ k ∈ d.*1.
Proof.
  unfold dict_mem. destruct (dict_get k d) eqn:Hget.
  - split; [intros _|done]. apply dec_stable. intros Hn.
    apply dict_get_None in Hn. congruence.
  - split; [done|]. intros Hin. by apply dict_get_None in Hget.
Qed.

Lemma dict_mem_false k d : dict_mem k d = false ↔ k ∉ d.*1.
Proof.
  rewrite <-dict_mem_true. destruct (dict_mem k d); naive_solver.
Qed.
End dict_facts.

(** ** Registration and finalize *)

Section Manager.
Context {user_obj entity : Type}.
Context `{!I_ConfigSerializable user_obj} `{!I_ConfigItem entity} `{platform : !Platform}.
Local Abbreviation manager := (@ConfigManager user_obj).
Local Abbreviation store := (@world user_obj entity).
Implicit Types (m : manager) (w : store).

Lemma add_item_keys file_id item_id (x : @item_like user_obj) its :
  NoDup its.*1 → NoDup (add_item file_id item_id x its).2.*1.
Proof.
  intros Hnd. unfold add_item. destruct (dict_mem item_id its); [done|].
  destruct (template_of_item_like x); [|done]. by apply dict_set_NoDup.
Qed.

Lemma add_item_loop_keys file_id (items : list (ident * @item_like user_obj)) its :
  NoDup its.*1 → NoDup (for_each (add_item file_id) items its).2.*1.
Proof.
  revert its. induction items as [|[k x] items IH]; intros its Hnd; [done|].
  simpl. unfold bind.
  pose proof (add_item_keys file_id k x its Hnd) as Hstep.
  destruct (add_item file_id k x its) as [[[]|e] its']; simpl in *; [|done].
  by apply IH.
Qed.

Lemma setdefault_inv {V} (k : ident) (v : V) (d : list (ident * V)) (P : ident * V → Prop) :
  NoDup d.*1 → Forall P d → P (k, v) →
  dict_get k (setdefault k v d).2 = Some (setdefault k v d).1 ∧
  NoDup (setdefault k v d).2.*1 ∧ Forall P (setdefault k v d).2 ∧
  P (k, (setdefault k v d).1).
Proof.
  intros Hnd HP Hkv. unfold setdefault.
  destruct (dict_get k d) as [x|] eqn:Hget; simpl.
  - split_and!; [done..|]. by eapply dict_get_Forall.
  - split_and!; [apply dict_get_set_eq|by apply dict_set_NoDup
                |by apply dict_set_Forall|done].
Qed.

Lemma add_file_path_inv m file_id path required :
  manager_inv m → manager_inv (add_file_path file_id path required m).2.
Proof.
  intros (Hnd & Hits & _). unfold add_file_path.
  pose proof (setdefault_inv file_id
    {| file_path := None; file_required := false; item_templates := [] |}
    (_file_templates m) (λ kv, NoDup (item_templates kv.2).*1) Hnd Hits
    (NoDup_nil_2 : NoDup ([] : list (ident * _)).*1)) as (_ & Hnd' & Hits' & Hft).
  destruct (setdefault _ _ _) as [ft templates]; simpl in *.
  case_bool_decide; simpl; (split_and!; [| |done]).
  - done.
  - done.
  - by apply dict_set_NoDup.
  - by apply dict_set_Forall.
Qed.

Lemma add_items_inv m file_id items :
  manager_inv m → manager_inv (add_items file_id items m).2.
Proof.
  intros (Hnd & Hits & _). unfold add_items.
  pose proof (setdefault_inv file_id
    {| file_path := None; file_required := false; item_templates := [] |}
    (_file_templates m) (λ kv, NoDup (item_templates kv.2).*1) Hnd Hits
    (NoDup_nil_2 : NoDup ([] : list (ident * _)).*1)) as (_ & Hnd' & Hits' & Hft).
  destruct (setdefault _ _ _) as [ft templates]; simpl in *.
  pose proof (add_item_loop_keys file_id items (item_templates ft) Hft) as Hloop.
  destruct (for_each _ _ _) as [r its]; simpl in *.
  split_and!; [by apply dict_set_NoDup|by apply dict_set_Forall|done].
Qed.

Lemma finalize_layout_inv m : manager_inv m → manager_inv (finalize_layout m).2.
Proof.
  intros (Hnd & Hits & Hfin). unfold finalize_layout.
  case_bool_decide as Hq; simpl; [done|].
  split_and!; [done..|]. intros _.
  apply Forall_forall. intros [k ft] Hin Hnone. apply Hq.
  assert (k ∈ (filter (λ kv, file_path kv.2 = None) (_file_templates m)).*1) as Hk.
  { apply list_elem_of_fmap. exists (k, ft). split; [done|].
    by apply list_elem_of_filter. }
  destruct (filter _ _).*1; [by apply elem_of_nil in Hk|simpl; lia].
Qed.

Lemma reachable_inv m : reachable m → manager_inv m.
Proof.
  induction 1.
  - split_and!; [apply NoDup_nil_2|constructor|done].
  - by apply add_file_path_inv.
  - by apply add_items_inv.
  - by apply finalize_layout_inv.
Qed.

Lemma missing_paths_elem m file_id :
  NoDup (_file_templates m).*1 →
  file_id ∈ (filter (λ kv, file_path kv.2 = None) (_file_templates m)).*1 ↔
  ∃ ft, dict_get file_id (_file_templates m) = Some ft ∧ file_path ft = None.
Proof.
  intros Hnd. rewrite list_elem_of_fmap. split.
  - intros ([k ft] & -> & [Hnone Hin]%list_elem_of_filter).
    exists ft. split; [by apply dict_get_elem|done].
  - intros (ft & Hget & Hnone). exists (file_id, ft). split; [done|].
    apply list_elem_of_filter. split; [done|]. by apply dict_get_Some_elem.
Qed.

(** C3. [finalize_layout] returns exactly when every registered file
    template has a path. When it raises, the ids in the error are exactly
    the registered ids whose template has no path, each once, and the
    manager is left as it was. The flag is [True] afterwards exactly when
    the call returned; the templates are never touched. *)
Theorem finalize_layout_complete m :
  reachable m →
  ((finalize_layout m).1 = Ok tt ↔
     ∀ file_id ft, dict_get file_id (_file_templates m) = Some ft → file_path ft ≠ None) ∧
  (∀ e, (finalize_layout m).1 = Raise e →
     ∃ ids, e = RuntimeError (MissingFilePaths ids) ∧ NoDup ids ∧ ids ≠ [] ∧
       (∀ file_id, file_id ∈ ids ↔
          ∃ ft, dict_get file_id (_file_templates m) = Some ft ∧ file_path ft = None) ∧
       (finalize_layout m).2 = m) ∧
  (_finalized (finalize_layout m).2 = true ↔ (finalize_layout m).1 = Ok tt) ∧
  _file_templates (finalize_layout m).2 = _file_templates m.
Proof.
  intros Hreach. destruct (reachable_inv m Hreach) as (Hnd & _ & Hfin).
  pose proof (missing_paths_elem m) as Hmiss.
  unfold finalize_layout. cbv zeta.
  set (ids := (filter (λ kv, file_path kv.2 = None) (_file_templates m)).*1) in *.
  assert (NoDup ids) as Hids.
  { apply (NoDup_fmap_2_strong fst).
    - intros [k1 f1] [k2 f2] [_ H1]%list_elem_of_filter [_ H2]%list_elem_of_filter Hk.
      simpl in Hk. subst k2. f_equal.
      apply (dict_get_elem _ _ _ Hnd) in H1, H2. congruence.
    - apply NoDup_filter. by eapply NoDup_fmap_1. }
  clearbody ids. case_bool_decide as Hq; simpl.
  - assert (ids ≠ []) as Hne by (intros Heq; rewrite Heq in Hq; simpl in Hq; lia).
    split_and!; [| | |done].
    + split; [done|]. intros Hall. exfalso.
      destruct ids as [|k ids']; [done|].
      destruct (proj1 (Hmiss k Hnd)) as (ft & Hget & Hnone); [left|].
      by eapply Hall.
    + intros e [= <-]. exists ids. split_and!; [done..| |done].
      intros file_id. by apply Hmiss.
    + split; [|done]. intros Hf. exfalso.
      destruct ids as [|k ids']; [done|].
      destruct (proj1 (Hmiss k Hnd)) as (ft & Hget & Hnone); [left|].
      specialize (Hfin Hf). rewrite Forall_forall in Hfin.
      apply (Hfin (k, ft)); [by apply dict_get_Some_elem|done].
  - assert (ids = []) as Hnil by (destruct ids; [done|simpl in Hq; lia]).
    split_and!; [|done..].
    split; [|done]. intros _ file_id ft Hget Hnone.
    assert (file_id ∈ ids) as Hin by (apply Hmiss; eauto).
    rewrite Hnil in Hin. by apply elem_of_nil in Hin.
Qed.

(** *** The flag after a registration call *)

Lemma add_file_path_resets m file_id path required :
  _finalized (add_file_path file_id path required m).2 = false.
Proof.
  unfold add_file_path. destruct (setdefault _ _ _) as [ft templates].
  by case_bool_decide.
Qed.

Lemma add_items_resets m file_id items :
  _finalized (add_items file_id items m).2 = false.
Proof.
  unfold add_items. destruct (setdefault _ _ _) as [ft templates].
  by destruct (for_each _ _ _).
Qed.

Lemma load_save_need_finalize m w c :
  _finalized m = false → is_load_or_save c = true →
  ∃ msg, run_call c (m, w) = (Raise (RuntimeError msg), (m, w)) ∧
         (msg = LoadBeforeFinalize ∨ msg = SaveBeforeFinalize).
Proof.
  intros Hf Hc. destruct c; try done; simpl;
    unfold on_world, load_configs, load_config_file, save_configs, save_config_file;
    simpl; rewrite Hf; simpl; eauto.
Qed.

Lemma run_call_keeps_flag m w c :
  _finalized m = false → c ≠ FinalizeLayout →
  _finalized (run_call c (m, w)).2.1 = false.
Proof.
  intros Hf Hc. destruct c; try done; simpl; unfold on_manager, on_world; simpl.
  - pose proof (add_file_path_resets m file_id path required).
    by destruct (add_file_path _ _ _ _).
  - pose proof (add_items_resets m file_id items).
    by destruct (add_items _ _ _).
  - by destruct (load_configs _ _).
  - by destruct (load_config_file _ _ _).
  - by destruct (save_configs _ _).
  - by destruct (save_config_file _ _ _).
Qed.

Lemma run_calls_keep_flag cs (st : manager * store) :
  _finalized st.1 = false → Forall (λ c, c ≠ FinalizeLayout) cs →
  _finalized (run_calls cs st).1 = false.
Proof.
  intros Hf Hcs. revert st Hf.
  induction Hcs as [|c cs Hc Hcs IH]; intros [m w] Hf; [done|].
  simpl. apply IH. by apply run_call_keeps_flag.
Qed.

(** C4. A registration call ([add_file_path] or [add_items]) leaves the
    flag [False], whatever the manager was and whether the call returned
    or raised; the flag stays [False] over any further calls other than
    [finalize_layout], and every load or save call made meanwhile raises
    the not-finalized error and changes nothing. *)
Theorem registration_resets_finalized m w c cs :
  is_registration c = true →
  Forall (λ c', c' ≠ FinalizeLayout) cs →
  _finalized (run_call c (m, w)).2.1 = false ∧
  let st := run_calls cs (run_call c (m, w)).2 in
  _finalized st.1 = false ∧
  ∀ c', is_load_or_save c' = true →
    ∃ msg, run_call c' st = (Raise (RuntimeError msg), st) ∧
           (msg = LoadBeforeFinalize ∨ msg = SaveBeforeFinalize).
Proof.
  intros Hc Hcs.
  assert (_finalized (run_call c (m, w)).2.1 = false) as Hreset.
  { destruct c; try done; simpl; unfold on_manager; simpl.
    - pose proof (add_file_path_resets m file_id path required).
      by destruct (add_file_path _ _ _ _).
    - pose proof (add_items_resets m file_id items).
      by destruct (add_items _ _ _). }
  split; [done|]. intros st.
  assert (_finalized st.1 = false) as Hst by by apply run_calls_keep_flag.
  split; [done|]. intros c' Hc'. destruct st as [m' w'].
  by apply load_save_need_finalize.
Qed.
(** *** What [add_items] accepts *)

Lemma add_items_run m file_id items :
  add_items file_id items m =
    let '(r, its) := for_each (add_item file_id) items (items_of m file_id) in
    (r, (add_items file_id items m).2).
Proof.
  unfold add_items, items_of, setdefault.
  destruct (dict_get file_id (_file_templates m)) as [ft|]; simpl;
    by destruct (for_each _ _ _).
Qed.

Lemma add_items_items_of m file_id items :
  items_of (add_items file_id items m).2 file_id =
    (for_each (add_item file_id) items (items_of m file_id)).2.
Proof.
  unfold add_items, items_of, setdefault.
  destruct (dict_get file_id (_file_templates m)) as [ft|]; simpl;
    destruct (for_each _ _ _); simpl; by rewrite dict_get_set_eq.
Qed.

Lemma add_item_keeps file_id item_id (x : @item_like user_obj) its k t :
  dict_get k its = Some t → dict_get k (add_item file_id item_id x its).2 = Some t.
Proof.
  intros Hk. unfold add_item. destruct (dict_mem item_id its) eqn:Hmem; [done|].
  destruct (template_of_item_like x); [|done]. simpl.
  rewrite dict_get_set_ne; [done|]. intros ->.
  unfold dict_mem in Hmem. by rewrite Hk in Hmem.
Qed.

Lemma add_item_loop_keeps file_id (items : list (ident * @item_like user_obj)) its k t :
  dict_get k its = Some t →
  dict_get k (for_each (add_item file_id) items its).2 = Some t.
Proof.
  revert its. induction items as [|[k0 x] items IH]; intros its Hk; [done|].
  simpl. unfold bind.
  pose proof (add_item_keeps file_id k0 x its k t Hk) as Hstep.
  destruct (add_item file_id k0 x its) as [[[]|e] its']; simpl in *; [|done].
  by apply IH.
Qed.







(** *** What a failing [add_items] leaves behind *)

Lemma add_item_loop_partial file_id (pre : list (ident * @item_like user_obj))
    item_id x post :
  ∀ its,
    NoDup pre.*1 →
    (∀ k, k ∈ pre.*1 → dict_get k its = None) →
    (∀ k y, (k, y) ∈ pre → is_ok (template_of_item_like y) = true) →
    dict_mem item_id its = true ∨ item_id ∈ pre.*1 ∨
      is_ok (template_of_item_like x) = false →
    ∃ e added,
      for_each (add_item file_id) (pre ++ (item_id, x) :: post) its
        = (Raise e, its ++ added) ∧
      Forall2 registers pre added.
Proof.
  induction pre as [|[k y] pre IH]; intros its Hnd Hfresh Hok Hfail.
  - simpl. unfold bind, add_item at 1.
    destruct (dict_mem item_id its) eqn:Hmem.
    + eexists _, []. rewrite app_nil_r. split; [done|constructor].
    + destruct Hfail as [?|[Hin|Hbad]]; [done|by apply elem_of_nil in Hin|].
      destruct (template_of_item_like x) as [t|e]; [done|].
      eexists _, []. rewrite app_nil_r. split; [done|constructor].
  - rewrite fmap_cons in Hnd. apply NoDup_cons in Hnd as [Hk Hnd].
    assert (dict_get k its = None) as Hknew by (apply Hfresh; left).
    pose proof (Hok k y ltac:(left)) as Hy.
    destruct (template_of_item_like y) as [t|] eqn:Hty; [|done].
    simpl. unfold bind, add_item at 1. unfold dict_mem. rewrite Hknew, Hty.
    destruct (IH (dict_set k t its)) as (e & added & Hrun & Hadded); [done| | |..].
    + intros k' Hk'. rewrite dict_get_set_ne; [|by intros ->].
      apply Hfresh. by right.
    + intros k' y' Hin'. apply (Hok k'). by right.
    + destruct (decide (item_id = k)) as [->|Hne].
      * left. unfold dict_mem. by rewrite dict_get_set_eq.
      * destruct Hfail as [Hmem|[Hin|Hbad]]; [left|right; left|by right; right].
        -- unfold dict_mem in *. by rewrite dict_get_set_ne.
        -- rewrite fmap_cons in Hin. by apply elem_of_cons in Hin as [?|?].
    + exists e, ((k, t) :: added). rewrite Hrun.
      rewrite dict_set_fresh by done. rewrite <-app_assoc. split; [done|].
      constructor; [done|done].
Qed.

Lemma registers_elem (pre : list (ident * @item_like user_obj)) added :
  Forall2 registers pre added →
  ∀ k y, (k, y) ∈ pre → ∃ t, template_of_item_like y = Ok t ∧ (k, t) ∈ added.
Proof.
  induction 1 as [|[k1 y1] [k2 t2] pre added [Hk Ht] _ IH]; intros k y Hin.
  - by apply elem_of_nil in Hin.
  - simpl in *. subst k2. apply elem_of_cons in Hin as [[= -> ->]|Hin].
    + exists t2. split; [done|left].
    + destruct (IH k y Hin) as (t & Hty & Hadd). exists t. split; [done|by right].
Qed.

Lemma registers_keys (pre : list (ident * @item_like user_obj)) added :
  Forall2 registers pre added → pre.*1 = added.*1.
Proof.
  induction 1 as [|[k1 y1] [k2 t2] pre added [Hk Ht] _ IH]; [done|].
  rewrite !fmap_cons. simpl in *. by f_equal.
Qed.

(** C10. When [add_items] reaches an item it rejects (its id is already
    registered for the file or was registered earlier in the same call, or
    its shape is unsupported), the call raises, the flag is [False], and
    the items that came before it in the mapping are registered: the item
    templates of the file are those it had, followed by the templates of
    these items. *)
Theorem add_items_not_atomic m file_id pre item_id x post :
  NoDup pre.*1 →
  (∀ k, k ∈ pre.*1 → dict_get k (items_of m file_id) = None) →
  (∀ k y, (k, y) ∈ pre → is_ok (template_of_item_like y) = true) →
  dict_mem item_id (items_of m file_id) = true ∨ item_id ∈ pre.*1 ∨
    is_ok (template_of_item_like x) = false →
  let r := (add_items file_id (pre ++ (item_id, x) :: post) m).1 in
  let m' := (add_items file_id (pre ++ (item_id, x) :: post) m).2 in
  (∃ e, r = Raise e) ∧
  _finalized m' = false ∧
  (∃ added, items_of m' file_id = items_of m file_id ++ added ∧
            Forall2 registers pre added) ∧
  (∀ k y, (k, y) ∈ pre →
     ∃ t, template_of_item_like y = Ok t ∧ dict_get k (items_of m' file_id) = Some t) ∧
  (pre ≠ [] → m' ≠ m).
Proof.
  intros Hnd Hfresh Hok Hfail r m'. subst r m'.
  destruct (add_item_loop_partial file_id pre item_id x post (items_of m file_id)
              Hnd Hfresh Hok Hfail) as (e & added & Hrun & Hadded).
  assert (items_of (add_items file_id (pre ++ (item_id, x) :: post) m).2 file_id
          = items_of m file_id ++ added) as Hitems.
  { by rewrite add_items_items_of, Hrun. }
  assert (∀ k y, (k, y) ∈ pre →
            ∃ t, template_of_item_like y = Ok t ∧
                 dict_get k (items_of (add_items file_id (pre ++ (item_id, x) :: post) m).2
                               file_id) = Some t) as registered_prefix.
  { intros k y Hin. rewrite Hitems.
    destruct (registers_elem _ _ Hadded k y Hin) as (t & Hty & Hadd).
    exists t. split; [done|]. rewrite dict_get_app, Hfresh.
    - apply dict_get_elem; [|done]. by rewrite <-(registers_keys _ _ Hadded).
    - apply list_elem_of_fmap. by exists (k, y). }
  split_and!.
  - exists e. by rewrite add_items_run, Hrun.
  - apply add_items_resets.
  - by exists added.
  - by apply registered_prefix.
  - intros Hne Heq. destruct pre as [|[k y] pre]; [done|].
    destruct (registered_prefix k y) as (t & _ & Hget); [left|].
    rewrite Heq, Hfresh in Hget; [done|]. rewrite fmap_cons. left.
Qed.
End Manager.


(** ** Item templates *)

Section Items.
Context {user_obj entity : Type}.
Context `{!I_ConfigSerializable user_obj} `{!I_ConfigItem entity} `{platform : !Platform}.
Local Abbreviation store := (@world user_obj entity).
Implicit Types (w : store) (self : @ConfigItemTemplate user_obj) (t : @ConfigTarget user_obj).

Lemma deserialize_target self t item_id json_obj w :
  target self = DTarget t →
  _deserialize_obj self item_id json_obj w =
    match keywords (default_kwargs self) with
    | Raise e => (Raise e, warned t w)
    | Ok kw =>
        let w2 := emit (FactoryCall (obj t) (attr t) item_id json_obj
                          (default_args self) kw) (warned t w) in
        match config_deserialize (factory t) item_id json_obj (default_args self) kw with
        | Ok v =>
            if accepts_write t then (Ok tt, slot_write (obj t) (attr t) v w2)
            else (Raise AttributeError, w2)
        | Raise e => (Raise e, w2)
        end
    end.
Proof.
  intros Ht.
  unfold _deserialize_obj, warned, call_factory, setattr, accepts_write, bind, lift, modify.
  rewrite Ht.
  destruct (obj t) as [l|l settable]; destruct (negb _); simpl;
    destruct (keywords _); simpl; try done;
    destruct (config_deserialize _ _ _ _ _); simpl; try done;
    by destruct (settable (attr t)).
Qed.

Lemma deserialize_entity self e item_id json_obj w :
  target self = DEntity e →
  _deserialize_obj self item_id json_obj w =
    if is_none json_obj then (Ok tt, w)
    else match keywords (default_kwargs self) with
         | Raise err => (Raise err, w)
         | Ok kw =>
             let w1 := emit (ReconfigCall e item_id json_obj (default_args self) kw) w in
             match config_reconfig (entities w e) item_id json_obj (default_args self) kw with
             | Ok st => (Ok tt, entity_write e st w1)
             | Raise err => (Raise err, w1)
             end
         end.
Proof.
  intros Ht. unfold _deserialize_obj, call_reconfig, bind, lift, modify, ret.
  rewrite Ht. destruct (is_none json_obj); simpl; [done|].
  destruct (keywords _); simpl; [|done].
  by destruct (config_reconfig _ _ _ _ _).
Qed.

Lemma serialize_target self t item_id w :
  target self = DTarget t →
  _serialize_obj self item_id w =
    match slot_read (obj t) (attr t) w with
    | PData JNone => Raise (RuntimeError NonExistentObject)
    | PData _ => Raise (RuntimeError NotSerializable)
    | PSer o => config_serialize o item_id
    end.
Proof.
  intros Ht. unfold _serialize_obj. rewrite Ht.
  destruct (obj t); by destruct (slot_read _ _ _) as [[]|].
Qed.

(** C9. A destination that holds [None] is treated as an absent one:
    serializing the item raises the missing-object error in both stores;
    deserializing gives the same outcome and the same log in both and logs
    no overwrite warning. When the factory returns [v] and the owner takes
    the assignment, both calls return and leave the two stores equal, with
    [v] at the destination; when the factory returns and the owner refuses
    the assignment, both raise [AttributeError], [None] is still there in
    the one store and nothing in the other. The call returns in no other
    case. *)
Theorem none_is_absent self t item_id json_obj w :
  target self = DTarget t →
  slots w !! slot_of t = Some (PData JNone) →
  let present := _deserialize_obj self item_id json_obj w in
  let absent := _deserialize_obj self item_id json_obj (slot_clear t w) in
  slots (slot_clear t w) !! slot_of t = None ∧
  _serialize_obj self item_id w = Raise (RuntimeError NonExistentObject) ∧
  _serialize_obj self item_id (slot_clear t w) = Raise (RuntimeError NonExistentObject) ∧
  present.1 = absent.1 ∧
  events present.2 = events absent.2 ∧
  filter is_warning (events present.2) = filter is_warning (events w) ∧
  (∀ v, factory_returns self t item_id json_obj v →
     if accepts_write t
     then present.1 = Ok tt ∧ present.2 = absent.2 ∧
          slots present.2 !! slot_of t = Some v
     else present.1 = Raise AttributeError ∧
          slots present.2 !! slot_of t = Some (PData JNone) ∧
          slots absent.2 !! slot_of t = None) ∧
  (present.1 = Ok tt →
     accepts_write t = true ∧ ∃ v, factory_returns self t item_id json_obj v).
Proof.
  intros Ht Hslot present absent. subst present absent.
  assert (slot_read (obj t) (attr t) w = PData JNone) as Hr.
  { unfold slot_read. fold (slot_of t). by rewrite Hslot. }
  assert (slot_read (obj t) (attr t) (slot_clear t w) = PData JNone) as Hr'.
  { unfold slot_read, slot_clear. simpl. fold (slot_of t). by rewrite lookup_delete_eq. }
  split; [apply lookup_delete_eq|].
  rewrite !(serialize_target _ _ _ _ Ht), Hr, Hr'. split; [done|split; [done|]].
  rewrite !(deserialize_target _ _ _ _ _ Ht). unfold warned. rewrite Hr, Hr'. simpl.
  unfold factory_returns.
  destruct (keywords (default_kwargs self)) as [kw|e] eqn:Hkw; simpl.
  2:{ split_and!; [done..| |done]. by intros v (kw & [=] & _). }
  destruct (config_deserialize _ _ _ _ _) as [v|e] eqn:Hv; simpl.
  2:{ split_and!; [done..| | |done].
      - rewrite filter_app. simpl. by rewrite app_nil_r.
      - intros v (kw' & [= <-] & Hv'). congruence. }
  destruct (accepts_write t) eqn:Hacc; simpl.
  - split_and!; [done..| | |].
    + rewrite filter_app. simpl. by rewrite app_nil_r.
    + intros v' (kw' & [= <-] & Hv'). assert (v' = v) as -> by congruence.
      split_and!; [done| |].
      * unfold slot_write, slot_clear, emit. simpl. f_equal.
        fold (slot_of t). by rewrite insert_delete_eq.
      * fold (slot_of t). apply lookup_insert_eq.
    + intros _. split; [done|]. exists v. by exists kw.
  - split_and!; [done..| | |done].
    + rewrite filter_app. simpl. by rewrite app_nil_r.
    + intros v' _. split_and!; [done..|]. apply lookup_delete_eq.
Qed.
End Items.

(** ** Loading *)

Section Loading.
Context {user_obj entity : Type}.
Context `{!I_ConfigSerializable user_obj} `{!I_ConfigItem entity} `{platform : !Platform}.
Local Abbreviation manager := (@ConfigManager user_obj).
Local Abbreviation store := (@world user_obj entity).
Implicit Types (m : manager) (w : store) (ft : @ConfigFileTemplate user_obj).
Implicit Types (self : @ConfigItemTemplate user_obj) (t : @ConfigTarget user_obj).

Lemma load_config_file_finalized m file_id ft w :
  _finalized m = true → dict_get file_id (_file_templates m) = Some ft →
  load_config_file m file_id w = _load_config_file file_id ft w.
Proof.
  intros Hf Hget. unfold load_config_file, file_template_of, bind, lift.
  by rewrite Hf, Hget.
Qed.

Lemma load_missing_file file_id ft path w :
  file_path ft = Some path → disk w !! path = None →
  _load_config_file file_id ft w =
    if file_required ft
    then (Raise (RuntimeError (RequiredFileMissing file_id path)), w)
    else for_each (λ item_id item_template, _deserialize_obj item_template item_id JNone)
           (item_templates ft) w.
Proof.
  intros Hp Hd. unfold _load_config_file, the_path, bind, lift. rewrite Hp, Hd.
  by destruct (file_required ft).
Qed.

(** C6. Loading a required file that is not on disk raises the
    required-file-missing error and leaves the store as it was: no
    attribute or key of an owner, no direct entity, no file and no log
    entry differs. *)
Theorem load_required_missing m file_id ft path w :
  _finalized m = true →
  dict_get file_id (_file_templates m) = Some ft →
  file_path ft = Some path →
  file_required ft = true →
  disk w !! path = None →
  load_config_file m file_id w =
    (Raise (RuntimeError (RequiredFileMissing file_id path)), w).
Proof.
  intros Hf Hget Hp Hreq Hd.
  rewrite (load_config_file_finalized _ _ _ _ Hf Hget).
  by rewrite (load_missing_file _ _ _ _ Hp Hd), Hreq.
Qed.

(** C7. Loading a file that is on disk and whose [properties.id] is not
    equal to the file id raises the id-mismatch error and leaves the store
    as it was: no warning, factory call or reconfigure call is logged and
    no destination differs. *)
Theorem load_id_mismatch m file_id ft path text file_properties id w :
  _finalized m = true →
  dict_get file_id (_file_templates m) = Some ft →
  file_path ft = Some path →
  disk w !! path = Some (JsonFile text) →
  subscript (json_load text) "properties" = Ok file_properties →
  subscript file_properties "id" = Ok id →
  json_eq_id id file_id = false →
  load_config_file m file_id w = (Raise (RuntimeError FileIdMismatch), w).
Proof.
  intros Hf Hget Hp Hd Hprops Hid Hne.
  rewrite (load_config_file_finalized _ _ _ _ Hf Hget).
  unfold _load_config_file, the_path, bind, lift. rewrite Hp, Hd. simpl.
  by rewrite Hprops, Hid, Hne.
Qed.

(** *** Building the defaults of a file that is not on disk *)

Lemma warned_events t w :
  ∃ evs, events (warned t w) = events w ++ evs ∧
         Forall (λ ev, is_warning ev = true) evs.
Proof.
  unfold warned. destruct (negb _).
  - eexists [_]. split; [done|]. by repeat constructor.
  - exists []. by rewrite app_nil_r.
Qed.

Lemma warned_slots t w : slots (warned t w) = slots w.
Proof. unfold warned. by destruct (negb _). Qed.
Lemma warned_entities t w : entities (warned t w) = entities w.
Proof. unfold warned. by destruct (negb _). Qed.
Lemma warned_disk t w : disk (warned t w) = disk w.
Proof. unfold warned. by destruct (negb _). Qed.




End Loading.
(** ** The JSON collaborator *)

Section Json.



End Json.

(** ** Saving, and loading what was saved *)

Section RoundTrip.
Context {user_obj entity : Type}.
Context `{!I_ConfigSerializable user_obj} `{!I_ConfigItem entity} `{platform : !Platform}.
Local Abbreviation manager := (@ConfigManager user_obj).
Local Abbreviation store := (@world user_obj entity).
Implicit Types (m : manager) (w : store) (ft : @ConfigFileTemplate user_obj).
Implicit Types (self : @ConfigItemTemplate user_obj) (t : @ConfigTarget user_obj).
Implicit Types (items : list (ident * @ConfigItemTemplate user_obj)).


Lemma disk_write_twice path (c c' : file_content) w :
  disk_write path c (disk_write path c' w) = disk_write path c w.
Proof. unfold disk_write. simpl. f_equal. apply insert_insert_eq. Qed.

(** [_save_config_file], step by step. *)
Lemma save_file_run file_id ft path w :
  file_path ft = Some path →
  _save_config_file file_id ft w =
    match serialize_items (item_templates ft) [] w with
    | Raise e => (Raise e, w)
    | Ok json_items =>
        match open_error path with
        | Some e => (Raise e, w)
        | None =>
            match encode_error (json_data_of file_id json_items) with
            | Some e => (Raise e, disk_write path TornFile w)
            | None =>
                (Ok tt, disk_write path (json_dump (json_data_of file_id json_items)) w)
            end
        end
    end.
Proof.
  intros Hp. unfold _save_config_file, open_truncating, bind, the_path, lift, modify, raise.
  rewrite Hp. destruct (serialize_items _ _ _) as [json_items|]; [|done].
  fold (json_data_of file_id json_items).
  destruct (open_error path); [done|].
  destruct (encode_error _); [done|]. by rewrite disk_write_twice.
Qed.

Lemma save_file_no_path file_id ft w :
  file_path ft = None → is_ok (_save_config_file file_id ft w).1 = false.
Proof.
  intros Hp. unfold _save_config_file, bind, the_path, lift. rewrite Hp.
  by destruct (serialize_items _ _ _).
Qed.

Lemma save_config_file_finalized m file_id ft w :
  _finalized m = true →
  dict_get file_id (_file_templates m) = Some ft →
  save_config_file m file_id w = _save_config_file file_id ft w.
Proof.
  intros Hf Hget. unfold save_config_file, file_template_of, bind, lift.
  by rewrite Hf, Hget.
Qed.

Lemma save_file_ok file_id ft w w1 :
  _save_config_file file_id ft w = (Ok tt, w1) →
  ∃ json_items path,
    serialize_items (item_templates ft) [] w = Ok json_items ∧
    file_path ft = Some path ∧
    open_error path = None ∧
    encode_error (json_data_of file_id json_items) = None ∧
    w1 = disk_write path (json_dump (json_data_of file_id json_items)) w.
Proof.
  destruct (file_path ft) as [path|] eqn:Hp.
  - rewrite (save_file_run _ _ _ _ Hp).
    destruct (serialize_items _ _ _) as [json_items|]; [|done].
    destruct (open_error path) eqn:Hopen; [done|].
    destruct (encode_error _) eqn:Henc; [done|].
    intros [= <-]. by exists json_items, path.
  - intros Hrun. pose proof (save_file_no_path file_id ft w Hp) as Hno.
    by rewrite Hrun in Hno.
Qed.




Lemma slot_read_warned o a t w : slot_read o a (warned t w) = slot_read o a w.
Proof. unfold slot_read. by rewrite warned_slots. Qed.

(** The equality the factories are judged by. *)
Context (veq : relation (@pyval user_obj)).


End RoundTrip.

(** ** The application scenario *)

Module ScenarioFacts.
Import Scenario.

Lemma manager_with_eq item_id p f :
  manager_with item_id p f =
    {| _file_templates := [(IdStr "app", app_template item_id p f)];
       _finalized := true |}.
Proof. reflexivity. Qed.

Lemma load_configs_single p f (w : app_world) :
  load_configs (app_manager p f) w =
    let '(r, w') :=
      _load_config_file (IdStr "app") (app_template (IdStr "volume") p f) w in
    (r, w').
Proof.
  unfold app_manager. rewrite manager_with_eq. unfold load_configs. simpl.
  unfold bind. by destruct (_load_config_file _ _ _) as [[[]|] ?].
Qed.

Lemma load_absent_eq p f (w : app_world) v :
  disk w !! p = None →
  config_deserialize f (IdStr "volume") JNone [] [] = Ok v →
  load_configs (app_manager p f) w = (Ok tt, volume_set f JNone v w).
Proof.
  intros Hd Hv. rewrite load_configs_single.
  erewrite load_missing_file; [|done..]. simpl. unfold bind.
  erewrite deserialize_target; [|done]. simpl. by rewrite Hv.
Qed.

Lemma load_present_eq p f (w : app_world) n v :
  disk w !! p = Some (app_document n) →
  config_deserialize f (IdStr "volume") (JInt n) [] [] = Ok v →
  load_configs (app_manager p f) w = (Ok tt, volume_set f (JInt n) v w).
Proof.
  intros Hd Hv. rewrite load_configs_single.
  unfold _load_config_file, the_path, bind at 1 2, lift at 1. simpl. rewrite Hd.
  simpl. unfold bind. simpl.
  erewrite deserialize_target; [|done]. simpl. by rewrite Hv.
Qed.

Lemma load_absent p f (w : app_world) v :
  disk w !! p = None →
  config_deserialize f (IdStr "volume") JNone [] [] = Ok v →
  (load_configs (app_manager p f) w).1 = Ok tt ∧
  slots (load_configs (app_manager p f) w).2 !! (0%nat, "volume") = Some v ∧
  disk (load_configs (app_manager p f) w).2 = disk w.
Proof.
  intros Hd Hv. rewrite (load_absent_eq _ _ _ _ Hd Hv). simpl.
  split_and!; [done|apply lookup_insert_eq|apply warned_disk].
Qed.

Lemma load_present p f (w : app_world) n v :
  disk w !! p = Some (app_document n) →
  config_deserialize f (IdStr "volume") (JInt n) [] [] = Ok v →
  (load_configs (app_manager p f) w).1 = Ok tt ∧
  slots (load_configs (app_manager p f) w).2 !! (0%nat, "volume") = Some v.
Proof.
  intros Hd Hv. rewrite (load_present_eq _ _ _ _ _ Hd Hv). simpl.
  split; [done|apply lookup_insert_eq].
Qed.

Lemma save_configs_single p f (w : app_world) :
  save_configs (app_manager p f) w =
    match slot_read mapping "volume" w with
    | PData JNone => (Raise (RuntimeError NonExistentObject), w)
    | PData _ => (Raise (RuntimeError NotSerializable), w)
    | PSer o =>
        if unprintable (held o)
        then (Raise ValueError, disk_write p TornFile w)
        else
          (Ok tt,
           disk_write p
             (JsonFile
                (TObj [("properties", TObj [("id", TStr "app")]);
                       ("general_items", TObj [("volume", json_dump (held o))])])) w)
    end.
Proof.
  unfold app_manager. rewrite manager_with_eq. unfold save_configs. simpl.
  unfold bind at 1. erewrite save_file_run; [|done]. simpl.
  erewrite serialize_target; [|done]. simpl.
  destruct (slot_read mapping "volume" w) as [[]|o]; try done. simpl.
  rewrite !orb_false_r. by destruct (unprintable (held o)).
Qed.

(** C1 (amended). In the scenario (file id ["app"] at path [p], not
    required, item ["volume"] bound to the key ["volume"] of a mapping),
    with no file at [p]:
    - with the factory that returns the JSON value or [0], loading sets
      the key to [0]; saving then raises the not-serializable error and
      leaves the store, and so the disk, as it was; and loading a file
      whose [general_items.volume] is [7] sets the key to [7];
    - with the factory that returns a serializable holder of the JSON
      value or of [0], loading sets the key to the holder of [0], saving
      returns and the file at [p] is the document with volume [0], and
      after the volume on disk is changed to [7] loading sets the key to
      the holder of [7]. *)
Theorem app_scenario p (w : app_world) :
  disk w !! p = None →
  (let m := app_manager p value_factory in
   let loaded := load_configs m w in
   loaded.1 = Ok tt ∧
   slots loaded.2 !! (0%nat, "volume") = Some (PData (JInt 0)) ∧
   save_configs m loaded.2 = (Raise (RuntimeError NotSerializable), loaded.2) ∧
   disk loaded.2 !! p = None ∧
   ∀ w' : app_world, disk w' !! p = Some (app_document 7) →
     (load_configs m w').1 = Ok tt ∧
     slots (load_configs m w').2 !! (0%nat, "volume") = Some (PData (JInt 7))) ∧
  (let m := app_manager p holder_factory in
   let loaded := load_configs m w in
   let saved := save_configs m loaded.2 in
   let edited := disk_write p (app_document 7) saved.2 in
   let reloaded := load_configs m edited in
   loaded.1 = Ok tt ∧
   slots loaded.2 !! (0%nat, "volume") = Some (PSer {| held := JInt 0 |}) ∧
   saved.1 = Ok tt ∧
   disk saved.2 !! p = Some (app_document 0) ∧
   reloaded.1 = Ok tt ∧
   slots reloaded.2 !! (0%nat, "volume") = Some (PSer {| held := JInt 7 |})).
Proof.
  intros Hd. split.
  - intros m loaded. subst m loaded.
    rewrite (load_absent_eq p value_factory w (PData (JInt 0)) Hd eq_refl).
    cbn [fst snd]. split_and!.
    + done.
    + apply lookup_insert_eq.
    + rewrite save_configs_single. unfold slot_read, volume_set. simpl.
      by rewrite lookup_insert_eq.
    + unfold volume_set. simpl. by rewrite warned_disk.
    + intros w' Hd'. by apply (load_present p value_factory w' 7).
  - intros m loaded saved edited reloaded. subst m loaded saved edited reloaded.
    rewrite (load_absent_eq p holder_factory w (PSer {| held := JInt 0 |}) Hd eq_refl).
    cbn [fst snd]. rewrite save_configs_single. unfold slot_read, volume_set at 1 2 3. simpl.
    rewrite !lookup_insert_eq. simpl.
    split_and!; [done|done|done|apply lookup_insert_eq|..];
      eapply (load_present p holder_factory _ 7); try done; apply lookup_insert_eq.
Qed.

(** C1, as stated, fails: with the factory that returns the JSON value
    or [0], loading sets the key to the plain integer [0], and saving then
    raises instead of writing the file. *)
Lemma app_scenario_save_raises :
  let m := app_manager "app.json" value_factory in
  let loaded := load_configs m empty_world in
  let saved := save_configs m loaded.2 in
  loaded.1 = Ok tt ∧
  slots loaded.2 !! (0%nat, "volume") = Some (PData (JInt 0)) ∧
  saved.1 = Raise (RuntimeError NotSerializable) ∧
  saved.1 ≠ Ok tt ∧
  disk saved.2 !! "app.json" = None.
Proof. vm_compute. by split_and!. Qed.

(** The scenario, at a concrete path and store. *)
Lemma app_scenario_witness :
  disk empty_world !! "app.json" = None ∧
  (save_configs (app_manager "app.json" value_factory)
     (load_configs (app_manager "app.json" value_factory) empty_world).2).1
    = Raise (RuntimeError NotSerializable) ∧
  slots (load_configs (app_manager "app.json" holder_factory)
           (disk_write "app.json" (app_document 7)
              (save_configs (app_manager "app.json" holder_factory)
                 (load_configs (app_manager "app.json" holder_factory) empty_world).2).2)).2
    !! (0%nat, "volume") = Some (PSer {| held := JInt 7 |}).
Proof.
  pose proof (app_scenario "app.json" empty_world eq_refl) as [Hvalue Hholder].
  cbv zeta in Hvalue, Hholder.
  destruct Hvalue as (_ & _ & Hsave & _). destruct Hholder as (_ & _ & _ & _ & _ & Hre).
  split_and!; [reflexivity|by rewrite Hsave|exact Hre].
Defined.


(** An item whose id is an integer is written under the decimal text of
    its id and looked up under the integer: it is not found again, and the
    factory is given [None], although it would rebuild the value from
    what was saved. *)
Lemma int_item_id_not_restored :
  let m := manager_with (IdInt 1) "app.json" holder_factory in
  let w := world_with (PSer {| held := JInt 5 |}) in
  let saved := save_config_file m (IdStr "app") w in
  let loaded := load_config_file m (IdStr "app") saved.2 in
  saved.1 = Ok tt ∧
  disk saved.2 !! "app.json" =
    Some (JsonFile (TObj [("properties", TObj [("id", TStr "app")]);
                          ("general_items", TObj [("1", TInt 5)])])) ∧
  loaded.1 = Ok tt ∧
  slots loaded.2 !! (0%nat, "volume") = Some (PSer {| held := JInt 0 |}) ∧
  config_deserialize holder_factory (IdInt 1) (JInt 5) [] []
    = Ok (PSer {| held := JInt 5 |}).
Proof. vm_compute. by split_and!. Qed.

Lemma manager_with_reachable item_id p f : reachable (manager_with item_id p f).
Proof.
  unfold manager_with. cbv zeta.
  apply reachable_finalize_layout, reachable_add_items, reachable_add_file_path,
    reachable_init.
Qed.




(** [finalize_layout] on a manager in which one file has no path. *)
Lemma finalize_layout_complete_witness :
  reachable partial_manager ∧
  (finalize_layout partial_manager).1
    = Raise (RuntimeError (MissingFilePaths [IdStr "other"])) ∧
  _finalized (finalize_layout partial_manager).2 ≠ true.
Proof.
  assert (reachable partial_manager) as Hreach.
  { apply reachable_add_items, reachable_add_file_path, reachable_init. }
  destruct (finalize_layout_complete partial_manager Hreach)
    as (_ & _ & Hflag & _).
  split_and!; [done|reflexivity|].
  intros Hf. apply Hflag in Hf. discriminate Hf.
Defined.

(** A registration after finalize, then a load, a save and another
    registration. *)
Lemma registration_resets_finalized_witness :
  let m := app_manager "app.json" holder_factory in
  let c := AddItems (IdStr "app") [] in
  let cs := [LoadConfigs; SaveConfigFile (IdStr "app");
             AddFilePath (IdStr "other") "other.json" true] in
  _finalized m = true ∧ is_registration c = true ∧
  _finalized (run_calls cs (run_call c (m, empty_world)).2).1 = false ∧
  (run_call LoadConfigs (run_calls cs (run_call c (m, empty_world)).2)).1
    = Raise (RuntimeError LoadBeforeFinalize).
Proof.
  intros m c cs.
  destruct (registration_resets_finalized m empty_world c cs) as (_ & Hflag & Hfail).
  - reflexivity.
  - by repeat constructor.
  - split_and!; [reflexivity|reflexivity|exact Hflag|].
    destruct (Hfail LoadConfigs eq_refl) as (msg & Hrun & [-> | ->]).
    + exact (f_equal fst Hrun).
    + apply (f_equal fst) in Hrun. vm_compute in Hrun. discriminate Hrun.
Defined.

Lemma mixed_manager_eq p required :
  mixed_manager p required =
    {| _file_templates := [(IdStr "app", mixed_template p required)];
       _finalized := true |}.
Proof. reflexivity. Qed.


(** Loading the file of the application, absent and required. *)
Lemma load_required_missing_witness :
  let m := mixed_manager "app.json" true in
  _finalized m = true ∧ disk empty_world !! "app.json" = None ∧
  load_config_file m (IdStr "app") empty_world =
    (Raise (RuntimeError (RequiredFileMissing (IdStr "app") "app.json")), empty_world).
Proof.
  intros m. split_and!; [reflexivity|reflexivity|].
  by apply (load_required_missing m (IdStr "app") (mixed_template "app.json" true)).
Defined.

(** Loading a file that carries the id ["other"] as file ["app"]. *)
Lemma load_id_mismatch_witness :
  let m := app_manager "app.json" holder_factory in
  _finalized m = true ∧
  json_eq_id (JStr "other") (IdStr "app") = false ∧
  load_config_file m (IdStr "app") misrouted_world =
    (Raise (RuntimeError FileIdMismatch), misrouted_world).
Proof.
  intros m. split_and!; [reflexivity|reflexivity|].
  eapply (load_id_mismatch m (IdStr "app")
            (app_template (IdStr "volume") "app.json" holder_factory) "app.json");
    reflexivity.
Defined.



(** A mapping that holds [None] at ["volume"]. *)
Lemma none_is_absent_witness :
  let self := {| target := DTarget (volume holder_factory);
                 default_args := []; default_kwargs := [] |} in
  let w := world_with (PData JNone) in
  slots w !! (0%nat, "volume") = Some (PData JNone) ∧
  _serialize_obj self (IdStr "volume") w = Raise (RuntimeError NonExistentObject) ∧
  filter is_warning (events (_deserialize_obj self (IdStr "volume") (JInt 7) w).2) = [].
Proof.
  intros self w.
  destruct (none_is_absent self (volume holder_factory) (IdStr "volume") (JInt 7) w
              eq_refl eq_refl) as (_ & Hser & _ & _ & _ & Hwarn & _).
  split_and!; [reflexivity|exact Hser|exact Hwarn].
Defined.

(** [add_items] with two new items followed by a second item ["volume"]. *)
Lemma add_items_not_atomic_witness :
  let pre := [(IdStr "balance", LDest (DTarget (volume holder_factory)));
              (IdStr "counter", LDest (DEntity 1%nat))] in
  let m := app_manager "app.json" holder_factory in
  let registered :=
    add_items (IdStr "app")
      (pre ++ (IdStr "volume", LOther) :: [(IdStr "late", LDest (DEntity 2%nat))]) m in
  _finalized m = true ∧
  (∃ e, registered.1 = Raise e) ∧
  _finalized registered.2 = false ∧
  (items_of registered.2 (IdStr "app")).*1
    = [IdStr "volume"; IdStr "balance"; IdStr "counter"].
Proof.
  intros pre m registered.
  destruct (add_items_not_atomic m (IdStr "app") pre (IdStr "volume") LOther
              [(IdStr "late", LDest (DEntity 2%nat))])
    as (Hraise & Hflag & (added & Hitems & Hadded) & _ & _).
  - repeat constructor; set_solver.
  - intros k Hk. repeat (apply elem_of_cons in Hk as [->|Hk]; [reflexivity|]).
    by apply elem_of_nil in Hk.
  - intros k y Hin.
    repeat (apply elem_of_cons in Hin as [[= -> ->]|Hin]; [reflexivity|]).
    by apply elem_of_nil in Hin.
  - by left.
  - split_and!; [reflexivity|exact Hraise|exact Hflag|].
    subst registered. rewrite Hitems, fmap_app.
    by rewrite <-(registers_keys _ _ Hadded).
Defined.
End ScenarioFacts.

(** * Further properties *)

(** ** Registration *)

Section Registration.
Context {user_obj entity : Type}.
Context `{!I_ConfigSerializable user_obj} `{!I_ConfigItem entity} `{platform : !Platform}.
Local Abbreviation manager := (@ConfigManager user_obj).
Local Abbreviation store := (@world user_obj entity).
Implicit Types (m : manager) (w : store).

(** X1. A second path for a file raises and changes nothing but the flag:
    the path, the required flag and the items of every file stay. *)
Theorem add_file_path_set_once m file_id ft p0 path required :
  dict_get file_id (_file_templates m) = Some ft →
  file_path ft = Some p0 →
  add_file_path file_id path required m =
    (Raise (RuntimeError (PathAssignedTwice file_id)),
     {| _file_templates := _file_templates m; _finalized := false |}).
Proof.
  intros Hget Hp. unfold add_file_path, setdefault. rewrite Hget, Hp.
  by rewrite bool_decide_true.
Qed.

Lemma dict_set_set {V} (k : ident) (v v' : V) (d : list (ident * V)) :
  dict_set k v (dict_set k v' d) = dict_set k v d.
Proof.
  induction d as [|[k0 v0] d IH]; simpl.
  - by rewrite decide_True.
  - destruct (decide (k = k0)); simpl.
    + by rewrite decide_True.
    + rewrite decide_False by done. by f_equal.
Qed.

Lemma add_file_path_new m file_id path required :
  path_of m file_id = None →
  add_file_path file_id path required m =
    (Ok tt,
     {| _file_templates :=
          dict_set file_id
            {| file_path := Some path; file_required := required;
               item_templates := items_of m file_id |} (_file_templates m);
        _finalized := false |}).
Proof.
  unfold path_of, items_of, add_file_path, setdefault.
  destruct (dict_get file_id (_file_templates m)) as [ft|] eqn:Hget; simpl.
  - intros Hp. rewrite Hp. done.
  - intros _. by rewrite dict_set_set.
Qed.

Lemma add_file_path_other m file_id path required other :
  other ≠ file_id →
  dict_get other (_file_templates (add_file_path file_id path required m).2)
    = dict_get other (_file_templates m).
Proof.
  intros Hne. destruct (path_of m file_id) as [p0|] eqn:Hp.
  - unfold path_of in Hp.
    destruct (dict_get file_id (_file_templates m)) as [ft|] eqn:Hget; [|done].
    by rewrite (add_file_path_set_once _ _ _ _ _ _ Hget Hp).
  - rewrite (add_file_path_new _ _ _ _ Hp). simpl. by rewrite dict_get_set_ne.
Qed.

(** X2. A first path for a file (a new file id, or one that only has
    items) is accepted: the file then has this path and required flag and
    keeps its items; the other files are untouched. *)
Theorem add_file_path_assigns m file_id path required :
  path_of m file_id = None →
  let r := (add_file_path file_id path required m).1 in
  let m' := (add_file_path file_id path required m).2 in
  r = Ok tt ∧
  path_of m' file_id = Some path ∧
  required_of m' file_id = required ∧
  items_of m' file_id = items_of m file_id ∧
  (∀ other, other ≠ file_id →
     dict_get other (_file_templates m') = dict_get other (_file_templates m)).
Proof.
  intros Hp r m'. subst r m'. split_and!.
  - by rewrite (add_file_path_new _ _ _ _ Hp).
  - rewrite (add_file_path_new _ _ _ _ Hp). unfold path_of. simpl.
    by rewrite dict_get_set_eq.
  - rewrite (add_file_path_new _ _ _ _ Hp). unfold required_of. simpl.
    by rewrite dict_get_set_eq.
  - rewrite (add_file_path_new _ _ _ _ Hp). unfold items_of at 1. simpl.
    by rewrite dict_get_set_eq.
  - intros other Hne. by apply add_file_path_other.
Qed.

Lemma add_items_shape m file_id items :
  (add_items file_id items m).2 =
    {| _file_templates :=
         dict_set file_id
           {| file_path := path_of m file_id;
              file_required := required_of m file_id;
              item_templates :=
                (for_each (add_item file_id) items (items_of m file_id)).2 |}
           (_file_templates m);
       _finalized := false |}.
Proof.
  unfold add_items, path_of, required_of, items_of, setdefault.
  destruct (dict_get file_id (_file_templates m)) as [ft|] eqn:Hget; simpl;
    destruct (for_each _ _ _) as [r its]; simpl; [done|].
  by rewrite dict_set_set.
Qed.

Lemma add_item_loop_all file_id (items : list (ident * @item_like user_obj)) :
  ∀ its added,
    NoDup items.*1 →
    (∀ k, k ∈ items.*1 → dict_get k its = None) →
    Forall2 registers items added →
    for_each (add_item file_id) items its = (Ok tt, its ++ added).
Proof.
  induction items as [|[k y] items IH]; intros its added Hnd Hfresh Hadded.
  - apply Forall2_nil_inv_l in Hadded as ->. by rewrite app_nil_r.
  - apply Forall2_cons_inv_l in Hadded as ([k' t] & added' & [Hk Ht] & Hadded & ->).
    simpl in Hk, Ht. subst k'.
    rewrite fmap_cons in Hnd. apply NoDup_cons in Hnd as [Hknew Hnd].
    simpl. unfold bind, add_item at 1. unfold dict_mem.
    rewrite Hfresh by left. rewrite Ht.
    rewrite (IH (dict_set k t its) added'); [|done| |done].
    + rewrite dict_set_fresh by (apply Hfresh; left). by rewrite <-app_assoc.
    + intros k' Hk'. rewrite dict_get_set_ne; [|by intros ->].
      apply Hfresh. by right.
Qed.

(** X3. [add_items] with items that are all new for the file and all of a
    supported shape returns, and appends their templates, in the order of
    the mapping, to the items of the file; the path and required flag of
    the file and the other files are untouched. *)
Theorem add_items_registers_all m file_id items added :
  NoDup items.*1 →
  (∀ k, k ∈ items.*1 → dict_get k (items_of m file_id) = None) →
  Forall2 registers items added →
  let r := (add_items file_id items m).1 in
  let m' := (add_items file_id items m).2 in
  r = Ok tt ∧
  items_of m' file_id = items_of m file_id ++ added ∧
  path_of m' file_id = path_of m file_id ∧
  required_of m' file_id = required_of m file_id ∧
  (∀ other, other ≠ file_id →
     dict_get other (_file_templates m') = dict_get other (_file_templates m)).
Proof.
  intros Hnd Hfresh Hadded r m'. subst r m'.
  pose proof (add_item_loop_all file_id items _ _ Hnd Hfresh Hadded) as Hrun.
  split_and!.
  - by rewrite add_items_run, Hrun.
  - by rewrite add_items_items_of, Hrun.
  - rewrite add_items_shape. unfold path_of at 1. simpl. by rewrite dict_get_set_eq.
  - rewrite add_items_shape. unfold required_of at 1. simpl. by rewrite dict_get_set_eq.
  - intros other Hne. rewrite add_items_shape. simpl. by rewrite dict_get_set_ne.
Qed.

(** X4. A tuple is accepted by [add_items] exactly when it is a
    destination alone, a destination and a list, or a destination, a list
    and a dict; the template then holds these. An empty tuple raises
    [IndexError]; a fourth element after well-typed ones raises
    [TypeError]. *)
Theorem tuple_accepted_iff (elems : list (@dyn user_obj)) :
  (∀ t, template_of_item_like (LTuple elems) = Ok t ↔
     (∃ d, elems = [DynDest d] ∧
           t = {| target := d; default_args := []; default_kwargs := [] |}) ∨
     (∃ d a, elems = [DynDest d; DynData (JList a)] ∧
             t = {| target := d; default_args := a; default_kwargs := [] |}) ∨
     (∃ d a kw, elems = [DynDest d; DynData (JList a); DynData (JDict kw)] ∧
                t = {| target := d; default_args := a; default_kwargs := kw |})) ∧
  (elems = [] → template_of_item_like (LTuple elems) = Raise IndexError) ∧
  (∀ d a kw x rest, elems = DynDest d :: DynData (JList a) :: DynData (JDict kw) :: x :: rest →
     template_of_item_like (LTuple elems) = Raise TypeError).
Proof.
  split_and!.
  - intros t. split.
    + unfold template_of_item_like.
      destruct elems as [|e0 elems]; [done|]. simpl.
      destruct e0 as [d| |]; simpl; [|done..].
      destruct elems as [|e1 elems]; simpl.
      { intros [= <-]. left. by exists d. }
      destruct e1 as [|[]|]; simpl; try done.
      destruct elems as [|e2 elems]; simpl.
      { intros [= <-]. right. left. by eexists _, _. }
      destruct e2 as [|[]|]; simpl; try done.
      destruct elems as [|e3 elems]; simpl; [|done].
      intros [= <-]. right. right. by eexists _, _, _.
    + intros [(d & -> & ->)|[(d & a & -> & ->)|(d & a & kw & -> & ->)]]; done.
  - by intros ->.
  - by intros d a kw x rest ->.
Qed.

(** *** What registration never undoes *)

Lemma run_call_keeps (c : call) (st : manager * store) file_id :
  (∀ p, path_of st.1 file_id = Some p →
        path_of (run_call c st).2.1 file_id = Some p ∧
        required_of (run_call c st).2.1 file_id = required_of st.1 file_id) ∧
  (∀ item_id t, dict_get item_id (items_of st.1 file_id) = Some t →
                dict_get item_id (items_of (run_call c st).2.1 file_id) = Some t).
Proof.
  destruct st as [m w].
  assert (∀ m' : manager, _file_templates m' = _file_templates m →
            (∀ p, path_of m file_id = Some p →
                  path_of m' file_id = Some p ∧
                  required_of m' file_id = required_of m file_id) ∧
            (∀ item_id t, dict_get item_id (items_of m file_id) = Some t →
                          dict_get item_id (items_of m' file_id) = Some t)) as Hsame.
  { intros m' Heq. unfold path_of, required_of, items_of. by rewrite Heq. }
  assert (∀ m' : manager,
            dict_get file_id (_file_templates m') = dict_get file_id (_file_templates m) →
            (∀ p, path_of m file_id = Some p →
                  path_of m' file_id = Some p ∧
                  required_of m' file_id = required_of m file_id) ∧
            (∀ item_id t, dict_get item_id (items_of m file_id) = Some t →
                          dict_get item_id (items_of m' file_id) = Some t)) as Hlook.
  { intros m' Heq. unfold path_of, required_of, items_of. by rewrite Heq. }
  destruct c as [fid path required|fid items| | | | | ]; simpl; unfold on_manager, on_world; simpl.
  - destruct (add_file_path fid path required m) as [r m'] eqn:Hrun. simpl.
    assert (m' = (add_file_path fid path required m).2) as -> by by rewrite Hrun.
    destruct (decide (fid = file_id)) as [->|Hne].
    + destruct (path_of m file_id) as [p0|] eqn:Hp.
      * apply Hsame. unfold path_of in Hp.
        destruct (dict_get file_id (_file_templates m)) as [ft|] eqn:Hget; [|done].
        by rewrite (add_file_path_set_once _ _ _ _ _ _ Hget Hp).
      * split; [done|]. intros item_id t.
        rewrite (add_file_path_new _ _ _ _ Hp). unfold items_of at 2. simpl.
        by rewrite dict_get_set_eq.
    + apply Hlook. by apply add_file_path_other.
  - destruct (add_items fid items m) as [r m'] eqn:Hrun. simpl.
    assert (m' = (add_items fid items m).2) as -> by by rewrite Hrun.
    destruct (decide (fid = file_id)) as [->|Hne].
    + split.
      * intros p Hp. rewrite add_items_shape. split.
        -- unfold path_of at 1. simpl. by rewrite dict_get_set_eq.
        -- unfold required_of at 1. simpl. by rewrite dict_get_set_eq.
      * intros item_id t Ht. rewrite add_items_items_of. by apply add_item_loop_keeps.
    + apply Hlook. rewrite add_items_shape. simpl. by rewrite dict_get_set_ne.
  - apply Hsame. unfold finalize_layout. by case_bool_decide.
  - destruct (load_configs m w). by apply Hsame.
  - destruct (load_config_file m file_id0 w). by apply Hsame.
  - destruct (save_configs m w). by apply Hsame.
  - destruct (save_config_file m file_id0 w). by apply Hsame.
Qed.

(** X5. Nothing a caller does afterwards changes what was registered:
    over any sequence of calls, returning or raising, a file that has a
    path keeps that path and its required flag, and an item registered for
    a file stays registered with the same template. *)
Theorem registrations_are_permanent (cs : list call) (st : manager * store) file_id :
  (∀ p, path_of st.1 file_id = Some p →
        path_of (run_calls cs st).1 file_id = Some p ∧
        required_of (run_calls cs st).1 file_id = required_of st.1 file_id) ∧
  (∀ item_id t, dict_get item_id (items_of st.1 file_id) = Some t →
                dict_get item_id (items_of (run_calls cs st).1 file_id) = Some t).
Proof.
  revert st. induction cs as [|c cs IH]; intros st; [done|].
  simpl. destruct (run_call_keeps c st file_id) as [Hpath Hitem].
  destruct (IH (run_call c st).2) as [Hpath' Hitem']. split.
  - intros p Hp. destruct (Hpath p Hp) as [Hp1 Hr1].
    destruct (Hpath' p Hp1) as [Hp2 Hr2]. split; [done|congruence].
  - intros item_id t Ht. by apply Hitem', Hitem.
Qed.

(** X6. In every manager a caller can reach, file ids and the item ids of
    each file are unique, and while the manager is finalized every file has
    a path. *)
Theorem finalized_files_have_paths m :
  reachable m →
  NoDup (_file_templates m).*1 ∧
  ∀ file_id ft, dict_get file_id (_file_templates m) = Some ft →
    NoDup (item_templates ft).*1 ∧
    (_finalized m = true → ∃ path, file_path ft = Some path).
Proof.
  intros Hreach. destruct (reachable_inv m Hreach) as (Hnd & Hits & Hfin).
  split; [done|]. intros file_id ft Hget. split.
  - by apply (dict_get_Forall _ _ _ _ Hits Hget).
  - intros Hf. pose proof (dict_get_Forall _ _ _ _ (Hfin Hf) Hget) as Hp. simpl in Hp.
    destruct (file_path ft) as [path|]; [by exists path|done].
Qed.

(** X7. [finalize_layout] can be repeated: once it has returned, calling
    it again returns and leaves the manager as it is. *)
Theorem finalize_layout_idempotent m :
  (finalize_layout m).1 = Ok tt →
  finalize_layout (finalize_layout m).2 = (Ok tt, (finalize_layout m).2).
Proof.
  unfold finalize_layout. case_bool_decide as Hq; simpl; [done|].
  intros _. by rewrite bool_decide_false.
Qed.

(** X8. Items alone do not make a file usable: after [add_items] for a
    file that has no path, [finalize_layout] raises and names that file. *)
Theorem add_items_needs_path m file_id items :
  path_of m file_id = None →
  ∃ ids, (finalize_layout (add_items file_id items m).2).1
           = Raise (RuntimeError (MissingFilePaths ids)) ∧
         file_id ∈ ids.
Proof.
  intros Hp. rewrite add_items_shape, Hp. unfold finalize_layout. simpl.
  set (ft := {| file_path := None; file_required := _; item_templates := _ |}).
  assert (file_id ∈ (filter (λ kv, file_path kv.2 = None)
                       (dict_set file_id ft (_file_templates m))).*1) as Hin.
  { apply list_elem_of_fmap. exists (file_id, ft). split; [done|].
    apply list_elem_of_filter. split; [done|].
    apply dict_get_Some_elem, dict_get_set_eq. }
  rewrite bool_decide_true.
  - by eexists.
  - destruct (filter _ _).*1; [by apply elem_of_nil in Hin|simpl; lia].
Qed.
End Registration.

(** ** Saving *)

Section Saving.
Context {user_obj entity : Type}.
Context `{!I_ConfigSerializable user_obj} `{!I_ConfigItem entity} `{platform : !Platform}.
Local Abbreviation manager := (@ConfigManager user_obj).
Local Abbreviation store := (@world user_obj entity).
Implicit Types (m : manager) (w : store) (ft : @ConfigFileTemplate user_obj).
Implicit Types (items : list (ident * @ConfigItemTemplate user_obj)).

(** X9. Loading or saving a file id that was never registered raises
    [KeyError] and leaves the store as it was. *)
Theorem unknown_file_id m file_id w :
  _finalized m = true →
  dict_get file_id (_file_templates m) = None →
  load_config_file m file_id w = (Raise (KeyError file_id), w) ∧
  save_config_file m file_id w = (Raise (KeyError file_id), w).
Proof.
  intros Hf Hget.
  unfold load_config_file, save_config_file, file_template_of, bind, lift.
  by rewrite Hf, Hget.
Qed.


Lemma save_config_file_run m file_id ft path w :
  _finalized m = true →
  dict_get file_id (_file_templates m) = Some ft →
  file_path ft = Some path →
  save_config_file m file_id w =
    match serialize_items (item_templates ft) [] w with
    | Raise e => (Raise e, w)
    | Ok json_items =>
        match open_error path with
        | Some e => (Raise e, w)
        | None =>
            match encode_error (json_data_of file_id json_items) with
            | Some e => (Raise e, disk_write path TornFile w)
            | None =>
                (Ok tt, disk_write path (json_dump (json_data_of file_id json_items)) w)
            end
        end
    end.
Proof.
  intros Hf Hget Hp. rewrite (save_config_file_finalized _ _ _ _ Hf Hget).
  by apply save_file_run.
Qed.




Lemma serialize_disk_write self item_id path (c : file_content) w :
  _serialize_obj self item_id (disk_write path c w) = _serialize_obj self item_id w.
Proof. done. Qed.

Lemma serialize_items_disk_write items path (c : file_content) :
  ∀ acc w, serialize_items items acc (disk_write path c w) = serialize_items items acc w.
Proof.
  induction items as [|[id0 self0] items IH]; intros acc w; simpl; [done|].
  rewrite serialize_disk_write. by destruct (_serialize_obj self0 id0 w).
Qed.

(** X12. Saving overwrites: the content written for a file does not depend
    on what the file held before. *)
Theorem save_overwrites m file_id ft path text w :
  _finalized m = true →
  dict_get file_id (_file_templates m) = Some ft →
  file_path ft = Some path →
  (save_config_file m file_id w).1 = Ok tt →
  (save_config_file m file_id (disk_write path text w)).1 = Ok tt ∧
  disk (save_config_file m file_id (disk_write path text w)).2 !! path
    = disk (save_config_file m file_id w).2 !! path.
Proof.
  intros Hf Hget Hp. rewrite !(save_config_file_run _ _ _ _ _ Hf Hget Hp).
  rewrite serialize_items_disk_write.
  destruct (serialize_items _ _ _) as [json_items|e]; simpl; [|done].
  destruct (open_error path); simpl; [done|].
  destruct (encode_error _); simpl; [done|].
  intros _. by rewrite !lookup_insert_eq.
Qed.
End Saving.

(** ** Loading, further *)

Section LoadingMore.
Context {user_obj entity : Type}.
Context `{!I_ConfigSerializable user_obj} `{!I_ConfigItem entity} `{platform : !Platform}.
Local Abbreviation manager := (@ConfigManager user_obj).
Local Abbreviation store := (@world user_obj entity).
Implicit Types (m : manager) (w : store) (ft : @ConfigFileTemplate user_obj).
Implicit Types (self : @ConfigItemTemplate user_obj) (t : @ConfigTarget user_obj).
Implicit Types (items : list (ident * @ConfigItemTemplate user_obj)).

Lemma for_each_ext_in {S K V} (f g : K → V → M S unit) (d : list (K * V)) :
  (∀ k v s, (k, v) ∈ d → f k v s = g k v s) →
  ∀ s, for_each f d s = for_each g d s.
Proof.
  induction d as [|[k v] d IH]; intros Hfg s; [done|].
  simpl. unfold bind. rewrite (Hfg k v s) by left.
  destruct (g k v s) as [[[]|e] s']; [|done].
  apply IH. intros k' v' s'' Hin. apply Hfg. by right.
Qed.

Lemma for_each_inv {S K V} (R : S → S → Prop) (body : K → V → M S unit)
    (d : list (K * V)) :
  (∀ s, R s s) → (∀ s1 s2 s3, R s1 s2 → R s2 s3 → R s1 s3) →
  (∀ k v s, (k, v) ∈ d → R s (body k v s).2) →
  ∀ s, R s (for_each body d s).2.
Proof.
  intros Hrefl Htrans. induction d as [|[k v] d IH]; intros Hstep s; [apply Hrefl|].
  simpl. unfold bind. pose proof (Hstep k v s ltac:(left)) as Hkv.
  destruct (body k v s) as [[[]|e] s']; simpl in *; [|done].
  eapply Htrans; [exact Hkv|]. apply IH. intros k' v' s'' Hin. apply Hstep. by right.
Qed.

Lemma touches_only_refl items w : touches_only items w w.
Proof. split_and!; [done|exists []; by rewrite app_nil_r|done..]. Qed.

Lemma touches_only_trans items w1 w2 w3 :
  touches_only items w1 w2 → touches_only items w2 w3 → touches_only items w1 w3.
Proof.
  intros (Hd & [e1 He1] & Hs & He) (Hd' & [e2 He2] & Hs' & He'). split_and!.
  - congruence.
  - exists (e1 ++ e2). by rewrite He2, He1, app_assoc.
  - intros k Hk. by rewrite Hs', Hs.
  - intros l Hl. by rewrite He', He.
Qed.

Lemma deserialize_touches_only items item_id self json_obj w :
  (item_id, self) ∈ items →
  touches_only items w (_deserialize_obj self item_id json_obj w).2.
Proof.
  intros Hin. destruct (target self) as [e|t] eqn:Ht.
  - rewrite (deserialize_entity _ _ _ _ _ Ht).
    destruct (is_none json_obj); [apply touches_only_refl|].
    destruct (keywords _) as [kw|err]; [|apply touches_only_refl]. simpl.
    destruct (config_reconfig _ _ _ _ _) as [st|err]; simpl.
    + split_and!; [done|by eexists|done|]. intros l Hl. simpl.
      rewrite decide_False; [done|]. intros ->. by eapply Hl.
    + split_and!; [done|by eexists|done..].
  - rewrite (deserialize_target _ _ _ _ _ Ht).
    destruct (warned_events t w) as (wevs & Hwev & _).
    destruct (keywords _) as [kw|err]; simpl.
    + destruct (config_deserialize _ _ _ _ _) as [v|err]; simpl;
        [destruct (accepts_write t)|].
      * split_and!; simpl.
        -- apply warned_disk.
        -- eexists. by rewrite Hwev, <-app_assoc.
        -- intros k Hk. rewrite lookup_insert_ne, warned_slots; [done|].
           by eapply Hk.
        -- intros l _. by rewrite warned_entities.
      * split_and!; simpl.
        -- apply warned_disk.
        -- eexists. by rewrite Hwev, <-app_assoc.
        -- intros k _. by rewrite warned_slots.
        -- intros l _. by rewrite warned_entities.
      * split_and!; simpl.
        -- apply warned_disk.
        -- eexists. by rewrite Hwev, <-app_assoc.
        -- intros k _. by rewrite warned_slots.
        -- intros l _. by rewrite warned_entities.
    + split_and!.
      * apply warned_disk.
      * by eexists.
      * intros k _. by rewrite warned_slots.
      * intros l _. by rewrite warned_entities.
Qed.

Lemma load_file_touches_only file_id ft w :
  touches_only (item_templates ft) w (_load_config_file file_id ft w).2.
Proof.
  unfold _load_config_file, the_path, bind at 1 2, lift at 1.
  destruct (file_path ft) as [path|]; [|apply touches_only_refl]. simpl.
  destruct (disk w !! path) as [[text|]|]; [|apply touches_only_refl|].
  - unfold bind at 1, lift at 1.
    destruct (subscript (json_load text) "properties") as [props|]; [|apply touches_only_refl].
    unfold bind at 1, lift at 1.
    destruct (subscript props "id") as [id|]; [|apply touches_only_refl].
    destruct (negb _); [apply touches_only_refl|].
    unfold bind at 1, lift at 1.
    destruct (subscript (json_load text) "general_items") as [fi|]; [|apply touches_only_refl].
    apply for_each_inv; [apply touches_only_refl|apply touches_only_trans|].
    intros id' self s Hin. unfold bind, lift.
    destruct (get_or_none fi id'); [|apply touches_only_refl].
    by apply deserialize_touches_only.
  - destruct (file_required ft); [apply touches_only_refl|].
    apply for_each_inv; [apply touches_only_refl|apply touches_only_trans|].
    intros id' self s Hin. by apply deserialize_touches_only.
Qed.

(** X13. Loading a file never writes the disk, only adds to the log, and
    changes no attribute, key or entity other than the destinations the
    items of that file are bound to; this holds whether the call returns
    or raises. *)
Theorem load_touches_only_its_destinations m file_id ft w :
  dict_get file_id (_file_templates m) = Some ft →
  touches_only (item_templates ft) w (load_config_file m file_id w).2.
Proof.
  intros Hget. unfold load_config_file, file_template_of, bind, lift. rewrite Hget.
  destruct (negb _); [apply touches_only_refl|]. apply load_file_touches_only.
Qed.


Lemma keywords_int_key (kwargs : list (ident * JSON_ITEM)) n x :
  (IdInt n, x) ∈ kwargs → keywords kwargs = Raise TypeError.
Proof.
  induction kwargs as [|[[s|n'] v] kwargs IH]; intros Hin; simpl.
  - by apply elem_of_nil in Hin.
  - apply elem_of_cons in Hin as [[=]|Hin]. by rewrite IH.
  - done.
Qed.

(** X15. Default keyword arguments with an integer key, which [add_items]
    accepts, make the item unloadable: deserializing raises [TypeError] at
    the call, before the factory or the reconfigure method is entered, and
    no destination changes. (A direct entity given [None] is skipped before
    the call is made.) *)
Theorem int_keyed_kwargs_break_load self item_id json_obj n x w :
  (IdInt n, x) ∈ default_kwargs self →
  (∀ e, target self = DEntity e → is_none json_obj = false) →
  let r := (_deserialize_obj self item_id json_obj w).1 in
  let w' := (_deserialize_obj self item_id json_obj w).2 in
  r = Raise TypeError ∧
  slots w' = slots w ∧ entities w' = entities w ∧ disk w' = disk w ∧
  filter is_factory_call (events w') = filter is_factory_call (events w) ∧
  filter is_reconfig_call (events w') = filter is_reconfig_call (events w).
Proof.
  intros Hin Hsome r w'. subst r w'.
  pose proof (keywords_int_key _ _ _ Hin) as Hkw.
  destruct (target self) as [e|t] eqn:Ht.
  - rewrite (deserialize_entity _ _ _ _ _ Ht), (Hsome e eq_refl), Hkw. done.
  - rewrite (deserialize_target _ _ _ _ _ Ht), Hkw. simpl.
    split_and!; [done|apply warned_slots|apply warned_entities|apply warned_disk|..];
      unfold warned; destruct (negb _); simpl; try done;
      by rewrite filter_app, app_nil_r.
Qed.
End LoadingMore.

(** ** What a file can hold *)

Section FileContent.
Context {user_obj entity : Type}.
Context `{!I_ConfigSerializable user_obj} `{!I_ConfigItem entity} `{platform : !Platform}.
Local Abbreviation manager := (@ConfigManager user_obj).
Local Abbreviation store := (@world user_obj entity).
Implicit Types (m : manager) (w : store) (ft : @ConfigFileTemplate user_obj).
Implicit Types (self : @ConfigItemTemplate user_obj) (t : @ConfigTarget user_obj).
Implicit Types (items : list (ident * @ConfigItemTemplate user_obj)).

Lemma dict_set_elem {K V} `{EqDecision K} (k k' : K) (v v' : V) (d : list (K * V)) :
  (k, v) ∈ dict_set k' v' d → (k, v) = (k', v') ∨ (k, v) ∈ d.
Proof.
  induction d as [|[k0 v0] d IH]; simpl.
  - intros Hin%list_elem_of_singleton. by left.
  - destruct (decide (k' = k0)) as [->|Hne].
    + intros [Heq|Hin]%elem_of_cons; [by left|right; by right].
    + intros [Heq|Hin]%elem_of_cons; [right; rewrite Heq; left|].
      destruct (IH Hin) as [?|?]; [by left|right; by right].
Qed.

Lemma dict_of_pairs_elem {K V} `{EqDecision K} (k : K) (v : V) (l : list (K * V)) :
  (k, v) ∈ dict_of_pairs l → (k, v) ∈ l.
Proof.
  unfold dict_of_pairs.
  assert (∀ acc, (k, v) ∈ fold_left (λ acc kv, dict_set kv.1 kv.2 acc) l acc →
                 (k, v) ∈ acc ∨ (k, v) ∈ l) as Hgen.
  { induction l as [|[k0 v0] l IH]; intros acc; simpl; [by left|].
    intros Hin. destruct (IH _ Hin) as [Hacc|Hl]; [|right; by right].
    apply dict_set_elem in Hacc as [->|Hacc]; [right; left|by left]. }
  intros Hin. destruct (Hgen [] Hin) as [Hnil|?]; [by apply elem_of_nil in Hnil|done].
Qed.

(** What [json.load] returns for an object has string keys only, and its
    values are themselves results of [json.load]. *)
Lemma json_load_dict (text : json_text) d :
  json_load text = JDict d →
  ∀ k v, (k, v) ∈ d → (∃ s, k = IdStr s) ∧ ∃ text', v = json_load text'.
Proof.
  destruct text; try done. cbn [json_load]. intros [= <-] k v Hin.
  apply dict_of_pairs_elem, list_elem_of_In, in_map_iff in Hin
    as ([s t'] & [= <- <-] & _).
  split; by eexists.
Qed.

(** X16. An item whose id is an integer is never found in a file: the keys
    [json.load] returns are strings, so the lookup of the item in
    [general_items] gives [None] (or has no [get], when [general_items] is
    not an object). *)
Theorem int_item_id_never_found (text : json_text) file_items n :
  subscript (json_load text) "general_items" = Ok file_items →
  get_or_none file_items (IdInt n) = Ok JNone ∨
  get_or_none file_items (IdInt n) = Raise AttributeError.
Proof.
  unfold subscript. destruct (json_load text) as [| | | | | |d] eqn:Hload; try done.
  destruct (dict_get (IdStr "general_items") d) as [v|] eqn:Hget; [|done].
  intros [= ->].
  destruct (json_load_dict _ _ Hload _ _ (dict_get_Some_elem _ _ _ Hget))
    as (_ & text' & ->).
  destruct (json_load text') as [| | | | | |d'] eqn:Hload'; try (by right).
  left. simpl. destruct (dict_get (IdInt n) d') as [v|] eqn:Hn; [|done].
  destruct (json_load_dict _ _ Hload' _ _ (dict_get_Some_elem _ _ _ Hn)) as ([s [=]] & _).
Qed.

(** X17. A file that is on disk and has the right id, but has no entry, or
    a [null] entry, for each registered item, is loaded as a missing
    optional file is: every item is deserialized with [None]. *)
Theorem load_without_entries file_id ft path text file_properties id d w :
  file_path ft = Some path →
  disk w !! path = Some (JsonFile text) →
  subscript (json_load text) "properties" = Ok file_properties →
  subscript file_properties "id" = Ok id →
  json_eq_id id file_id = true →
  subscript (json_load text) "general_items" = Ok (JDict d) →
  (∀ item_id self, (item_id, self) ∈ item_templates ft →
     default JNone (dict_get item_id d) = JNone) →
  _load_config_file file_id ft w =
    for_each (λ item_id item_template, _deserialize_obj item_template item_id JNone)
      (item_templates ft) w.
Proof.
  intros Hp Hd Hprops Hid Heq Hitems Hnone.
  unfold _load_config_file, the_path, bind, lift. rewrite Hp, Hd. simpl.
  rewrite Hprops, Hid, Heq. simpl. rewrite Hitems.
  apply for_each_ext_in. intros item_id self s Hin.
  simpl. by rewrite (Hnone item_id self Hin).
Qed.



(** X19. For a finalized manager, [load_configs] and [save_configs] are
    [load_config_file] and [save_config_file] for each registered file id,
    in the order of registration, up to the first call that raises. *)
Theorem all_files_is_each_file m w :
  reachable m →
  _finalized m = true →
  load_configs m w =
    for_each (λ file_id _, load_config_file m file_id) (_file_templates m) w ∧
  save_configs m w =
    for_each (λ file_id _, save_config_file m file_id) (_file_templates m) w.
Proof.
  intros Hreach Hf. destruct (reachable_inv m Hreach) as (Hnd & _ & _).
  unfold load_configs, save_configs. rewrite Hf. simpl. split.
  - apply for_each_ext_in. intros file_id ft s Hin.
    by rewrite (load_config_file_finalized _ _ _ _ Hf (dict_get_elem _ _ _ Hnd Hin)).
  - apply for_each_ext_in. intros file_id ft s Hin.
    unfold save_config_file, file_template_of, bind, lift.
    by rewrite Hf, (dict_get_elem _ _ _ Hnd Hin).
Qed.

(** *** [apply_attributes] *)





End FileContent.

(** ** Saving every file *)

Section SavingAll.
Context {user_obj entity : Type}.
Context `{!I_ConfigSerializable user_obj} `{!I_ConfigItem entity} `{platform : !Platform}.
Local Abbreviation manager := (@ConfigManager user_obj).
Local Abbreviation store := (@world user_obj entity).
Implicit Types (m : manager) (w : store) (ft : @ConfigFileTemplate user_obj).

Lemma save_loop_ok (d : list (ident * @ConfigFileTemplate user_obj)) :
  ∀ w w',
    for_each _save_config_file d w = (Ok tt, w') →
    slots w' = slots w ∧ entities w' = entities w ∧ events w' = events w ∧
    (∀ p, is_Some (disk w !! p) → is_Some (disk w' !! p)) ∧
    (∀ file_id ft path, (file_id, ft) ∈ d → file_path ft = Some path →
                        is_Some (disk w' !! path)).
Proof.
  induction d as [|[fid ft] d IH]; intros w w' Hrun.
  - injection Hrun as <-. split_and!; [done..|].
    intros file_id ft path Hin. by apply elem_of_nil in Hin.
  - simpl in Hrun. unfold bind in Hrun.
    destruct (_save_config_file fid ft w) as [[[]|e] w1] eqn:Hsave; [|done].
    destruct (save_file_ok _ _ _ _ Hsave) as (json_items & path0 & _ & Hp0 & _ & _ & ->).
    destruct (IH _ _ Hrun) as (Hs & He & Hev & Hkeep & Hall).
    split_and!; [done..| |].
    + intros p Hp. apply Hkeep. simpl.
      destruct (decide (path0 = p)) as [->|Hne].
      * rewrite lookup_insert_eq. by eexists.
      * by rewrite lookup_insert_ne.
    + intros file_id ft' path [[= -> ->]|Hin]%elem_of_cons Hp.
      * apply Hkeep. simpl. assert (path = path0) as -> by congruence.
        rewrite lookup_insert_eq. by eexists.
      * by eapply Hall.
Qed.

(** X21. When [save_configs] returns, every registered file is on disk,
    and no destination and no log entry has changed. *)
Theorem save_configs_writes_every_file m w :
  _finalized m = true →
  (save_configs m w).1 = Ok tt →
  (∀ file_id ft path,
     dict_get file_id (_file_templates m) = Some ft → file_path ft = Some path →
     is_Some (disk (save_configs m w).2 !! path)) ∧
  slots (save_configs m w).2 = slots w ∧
  entities (save_configs m w).2 = entities w ∧
  events (save_configs m w).2 = events w.
Proof.
  intros Hf. unfold save_configs. rewrite Hf. simpl.
  destruct (for_each _ _ _) as [r w'] eqn:Hrun. simpl. intros ->.
  destruct (save_loop_ok _ _ _ Hrun) as (Hs & He & Hev & _ & Hall).
  split_and!; [|done..]. intros file_id ft path Hget Hp.
  eapply Hall; [|done]. by apply dict_get_Some_elem.
Qed.
End SavingAll.

(** ** The further properties at concrete inputs *)

Module FurtherFacts.
Import Scenario Fixtures.

Lemma add_file_path_set_once_witness :
  let m := app_manager "app.json" holder_factory in
  path_of m (IdStr "app") = Some "app.json" ∧
  (add_file_path (IdStr "app") "elsewhere.json" true m).1
    = Raise (RuntimeError (PathAssignedTwice (IdStr "app"))) ∧
  path_of (add_file_path (IdStr "app") "elsewhere.json" true m).2 (IdStr "app")
    = Some "app.json".
Proof.
  intros m.
  pose proof (add_file_path_set_once m (IdStr "app")
                (app_template (IdStr "volume") "app.json" holder_factory)
                "app.json" "elsewhere.json" true eq_refl eq_refl) as Hrun.
  rewrite Hrun. by split_and!.
Defined.

Lemma add_file_path_assigns_witness :
  path_of (init (user_obj:=Holder)) (IdStr "app") = None ∧
  path_of path_only_manager (IdStr "app") = Some "app.json" ∧
  required_of path_only_manager (IdStr "app") = false.
Proof.
  destruct (add_file_path_assigns (init (user_obj:=Holder)) (IdStr "app") "app.json" false
              eq_refl) as (_ & Hp & Hr & _).
  split_and!; [reflexivity|exact Hp|exact Hr].
Defined.

Lemma add_items_registers_all_witness :
  let m := app_manager "app.json" holder_factory in
  (add_items (IdStr "app") more_items m).1 = Ok tt ∧
  (items_of (add_items (IdStr "app") more_items m).2 (IdStr "app")).*1
    = [IdStr "volume"; IdStr "balance"; IdStr "counter"] ∧
  path_of (add_items (IdStr "app") more_items m).2 (IdStr "app") = Some "app.json".
Proof.
  intros m.
  destruct (add_items_registers_all m (IdStr "app") more_items
              [(IdStr "balance", {| target := DTarget (volume fresh_factory);
                                    default_args := [JInt 1]; default_kwargs := [] |});
               (IdStr "counter", {| target := DEntity 1%nat;
                                    default_args := []; default_kwargs := [] |})])
    as (Hr & Hitems & Hp & _).
  - simpl. apply NoDup_cons. split; [|apply NoDup_singleton].
    by intros [=]%list_elem_of_singleton.
  - intros k Hk. repeat (apply elem_of_cons in Hk as [->|Hk]; [reflexivity|]).
    by apply elem_of_nil in Hk.
  - repeat constructor.
  - split_and!; [exact Hr|by rewrite Hitems|by rewrite Hp].
Defined.

Lemma tuple_accepted_iff_witness :
  template_of_item_like
    (LTuple [DynDest (DTarget (volume holder_factory)); DynData (JList [JInt 1])])
    = Ok {| target := DTarget (volume holder_factory);
            default_args := [JInt 1]; default_kwargs := [] |} ∧
  template_of_item_like (LTuple (user_obj:=Holder) []) = Raise IndexError.
Proof.
  destruct (tuple_accepted_iff
              [DynDest (DTarget (volume holder_factory)); DynData (JList [JInt 1])])
    as (Hiff & _ & _).
  destruct (tuple_accepted_iff (user_obj:=Holder) []) as (_ & Hempty & _).
  split; [|by apply Hempty].
  apply Hiff. right. left. by eexists _, _.
Defined.

Lemma registrations_are_permanent_witness :
  let st := (app_manager "app.json" holder_factory, empty_world) in
  let cs := [AddFilePath (IdStr "app") "elsewhere.json" true;
             AddItems (IdStr "app") [(IdStr "volume", LOther)];
             FinalizeLayout; LoadConfigs; SaveConfigs] in
  path_of st.1 (IdStr "app") = Some "app.json" ∧
  path_of (run_calls cs st).1 (IdStr "app") = Some "app.json" ∧
  dict_get (IdStr "volume") (items_of (run_calls cs st).1 (IdStr "app"))
    = Some volume_template.
Proof.
  intros st cs. destruct (registrations_are_permanent cs st (IdStr "app")) as [Hpath Hitem].
  destruct (Hpath "app.json" eq_refl) as [Hp _].
  split_and!; [reflexivity|exact Hp|by apply Hitem].
Defined.

Lemma finalized_files_have_paths_witness :
  let m := app_manager "app.json" holder_factory in
  reachable m ∧ _finalized m = true ∧
  ∃ path, file_path (app_template (IdStr "volume") "app.json" holder_factory) = Some path.
Proof.
  intros m.
  assert (reachable m) as Hreach.
  { unfold m, app_manager, manager_with. cbv zeta.
    apply reachable_finalize_layout, reachable_add_items, reachable_add_file_path,
      reachable_init. }
  destruct (finalized_files_have_paths m Hreach) as [_ Hfiles].
  destruct (Hfiles (IdStr "app") _ eq_refl) as [_ Hpath].
  split_and!; [exact Hreach|reflexivity|by apply Hpath].
Defined.

Lemma finalize_layout_idempotent_witness :
  (finalize_layout path_only_manager).1 = Ok tt ∧
  (finalize_layout (finalize_layout path_only_manager).2).1 = Ok tt.
Proof.
  split; [reflexivity|].
  by rewrite (finalize_layout_idempotent path_only_manager eq_refl).
Defined.

Lemma add_items_needs_path_witness :
  path_of (init (user_obj:=Holder)) (IdStr "app") = None ∧
  ∃ ids, (finalize_layout
            (add_items (IdStr "app") more_items (init (user_obj:=Holder))).2).1
           = Raise (RuntimeError (MissingFilePaths ids)) ∧
         IdStr "app" ∈ ids.
Proof.
  split; [reflexivity|].
  exact (add_items_needs_path (init (user_obj:=Holder)) (IdStr "app") more_items eq_refl).
Defined.

Lemma unknown_file_id_witness :
  let m := app_manager "app.json" holder_factory in
  _finalized m = true ∧
  load_config_file m (IdStr "other") empty_world
    = (Raise (KeyError (IdStr "other")), empty_world).
Proof.
  intros m. split; [reflexivity|].
  by destruct (unknown_file_id m (IdStr "other") empty_world eq_refl eq_refl).
Defined.



Lemma save_overwrites_witness :
  let m := app_manager "app.json" holder_factory in
  let w := world_with (PSer {| held := JInt 5 |}) in
  (save_config_file m (IdStr "app") w).1 = Ok tt ∧
  disk (save_config_file m (IdStr "app") (disk_write "app.json" (app_document 99) w)).2
    !! "app.json" = Some (app_document 5).
Proof.
  intros m w.
  assert ((save_config_file m (IdStr "app") w).1 = Ok tt) as Hok
    by (vm_compute; reflexivity).
  destruct (save_overwrites m (IdStr "app")
              (app_template (IdStr "volume") "app.json" holder_factory) "app.json"
              (app_document 99) w eq_refl eq_refl eq_refl Hok) as [_ Hdisk].
  split; [exact Hok|]. rewrite Hdisk. vm_compute. reflexivity.
Defined.

Lemma load_touches_only_its_destinations_witness :
  let m := mixed_manager "app.json" false in
  let w := world_with (PData (JInt 3)) in
  disk (load_config_file m (IdStr "app") w).2 = disk w ∧
  entities (load_config_file m (IdStr "app") w).2 2%nat = entities w 2%nat ∧
  slots (load_config_file m (IdStr "app") w).2 !! (0%nat, "name") = slots w !! (0%nat, "name").
Proof.
  intros m w.
  destruct (load_touches_only_its_destinations m (IdStr "app")
              (mixed_template "app.json" false) w eq_refl) as (Hd & _ & Hs & He).
  split_and!; [exact Hd|apply He|apply Hs].
  - intros id self Hin. repeat (apply elem_of_cons in Hin as [[= -> ->]|Hin]; [done|]).
    by apply elem_of_nil in Hin.
  - intros id self t Hin. repeat (apply elem_of_cons in Hin as [[= -> ->]|Hin];
      [by intros [= <-]|]). by apply elem_of_nil in Hin.
Defined.


Lemma int_keyed_kwargs_break_load_witness :
  (_deserialize_obj int_keyed_template (IdStr "volume") (JInt 7) empty_world).1
    = Raise TypeError ∧
  slots (_deserialize_obj int_keyed_template (IdStr "volume") (JInt 7) empty_world).2
    = slots empty_world.
Proof.
  destruct (int_keyed_kwargs_break_load int_keyed_template (IdStr "volume") (JInt 7)
              1 (JInt 0) empty_world) as (Hr & Hs & _).
  - left.
  - intros e [=].
  - by split.
Defined.

Lemma int_item_id_never_found_witness :
  subscript (json_load numbered_document) "general_items"
    = Ok (JDict [(IdStr "1", JInt 5)]) ∧
  get_or_none (JDict [(IdStr "1", JInt 5)]) (IdInt 1) = Ok JNone.
Proof.
  split; [reflexivity|].
  by destruct (int_item_id_never_found numbered_document
                 (JDict [(IdStr "1", JInt 5)]) 1 eq_refl).
Defined.

Lemma load_without_entries_witness :
  let ft := app_template (IdInt 1) "app.json" holder_factory in
  disk numbered_world !! "app.json" = Some (JsonFile numbered_document) ∧
  slots (_load_config_file (IdStr "app") ft numbered_world).2 !! (0%nat, "volume")
    = Some (PSer {| held := JInt 0 |}).
Proof.
  intros ft. split; [reflexivity|].
  rewrite (load_without_entries (IdStr "app") ft "app.json" numbered_document
             (JDict [(IdStr "id", JStr "app")]) (JStr "app") [(IdStr "1", JInt 5)]
             numbered_world); try reflexivity.
  intros item_id self [[= -> ->]|Hin]%elem_of_cons; [reflexivity|].
  by apply elem_of_nil in Hin.
Defined.


Lemma all_files_is_each_file_witness :
  let m := mixed_manager "app.json" true in
  reachable m ∧ _finalized m = true ∧
  load_configs m empty_world
    = (Raise (RuntimeError (RequiredFileMissing (IdStr "app") "app.json")), empty_world).
Proof.
  intros m.
  assert (reachable m) as Hreach.
  { unfold m, mixed_manager. cbv zeta.
    apply reachable_finalize_layout, reachable_add_items, reachable_add_file_path,
      reachable_init. }
  destruct (all_files_is_each_file m empty_world Hreach eq_refl) as [Hload _].
  split_and!; [exact Hreach|reflexivity|]. rewrite Hload. reflexivity.
Defined.


Lemma save_configs_writes_every_file_witness :
  let m := app_manager "app.json" holder_factory in
  let w := world_with (PSer {| held := JInt 5 |}) in
  _finalized m = true ∧ (save_configs m w).1 = Ok tt ∧
  is_Some (disk (save_configs m w).2 !! "app.json").
Proof.
  intros m w.
  assert ((save_configs m w).1 = Ok tt) as Hok by (vm_compute; reflexivity).
  destruct (save_configs_writes_every_file m w eq_refl Hok) as [Hall _].
  split_and!; [reflexivity|exact Hok|].
  by apply (Hall (IdStr "app") (app_template (IdStr "volume") "app.json" holder_factory)).
Defined.
End FurtherFacts.
